(** * TechInvestor dashboard: request cache, scoring rubric and portfolio analytics

    A shallow embedding of the client-side data engine of the dashboard:

    - [APICache] (stock page): TTL cache, sliding-window rate limiter and
      the retrying fetch wrapper [fetchWithRetry];
    - [getRiskLevel] and [generateInvestmentRecommendation] (stock page);
    - [calculateXIRR], the sector/industry normalisers and the holdings loop
      of [fetchPortfolioData] (home page).

    JavaScript numbers are IEEE 754 binary64 values and are modelled by the
    primitive floats of the prover, which are the same format with the same
    rounding.  [Date.now()] is an integer number of milliseconds ([Z]).
    Strings are ASCII strings. *)

From Stdlib Require Import ZArith NArith List String Ascii Bool Floats DecimalString Lia.
From stdpp Require Import gmap strings.
Import ListNotations.

(* Decimal literals denote the nearest binary64 value, as in the source. *)
#[local] Set Warnings "-inexact-float".

Local Open Scope string_scope.
Local Open Scope list_scope.
Local Open Scope Z_scope.

(** ** JavaScript values *)

(** A thrown [Error] is represented by its message. *)
Inductive result (A : Type) : Type :=
  | Ok (a : A)
  | Throw (message : string).
Arguments Ok {A} a.
Arguments Throw {A} message.

(** The value of a parsed JSON body ([any] in the source). *)
#[local] Unset Elimination Schemes.
Inductive json : Type :=
  | JNull
  | JBool (b : bool)
  | JNum (x : float)
  | JStr (s : string)
  | JArr (items : list json)
  | JObj (fields : list (string * json)).
#[local] Set Elimination Schemes.

(** [ToBoolean] on numbers: [NaN], [+0] and [-0] are falsy. *)
Definition truthy_num (x : float) : bool := negb (is_nan x || is_zero x).

(** [ToBoolean] on an optional number field ([undefined] is falsy). *)
Definition truthy_opt (o : option float) : bool :=
  match o with
  | Some x => truthy_num x
  | None => false
  end.

(** [ToNumber] on an optional number field: [undefined] becomes [NaN], so
    that every comparison with it is false. *)
Definition num_of_opt (o : option float) : float :=
  match o with
  | Some x => x
  | None => nan
  end.

Definition truthy (v : json) : bool :=
  match v with
  | JNull => false
  | JBool b => b
  | JNum x => truthy_num x
  | JStr s => negb (String.eqb s "")
  | JArr _ => true
  | JObj _ => true
  end.

(** ** String primitives *)

(** [needle] occurs in [s]: [s.includes(needle)]. *)
Fixpoint includes (s needle : string) : bool :=
  String.prefix needle s ||
  match s with
  | EmptyString => false
  | String _ s' => includes s' needle
  end.

Definition toLowerCase_ascii (c : ascii) : ascii :=
  let n := N_of_ascii c in
  if ((65 <=? n) && (n <=? 90))%N then ascii_of_N (n + 32) else c.

Fixpoint toLowerCase (s : string) : string :=
  match s with
  | EmptyString => EmptyString
  | String c s' => String (toLowerCase_ascii c) (toLowerCase s')
  end.

(** White space removed by [trim]: tab, line feed, vertical tab, form feed,
    carriage return and space. *)
Definition is_white_space (c : ascii) : bool :=
  let n := N_of_ascii c in
  (((9 <=? n) && (n <=? 13)) || (n =? 32))%N.

Fixpoint trimStart (s : string) : string :=
  match s with
  | EmptyString => EmptyString
  | String c s' => if is_white_space c then trimStart s' else s
  end.

Fixpoint trimEnd (s : string) : string :=
  match s with
  | EmptyString => EmptyString
  | String c s' =>
      match trimEnd s' with
      | EmptyString => if is_white_space c then EmptyString else String c EmptyString
      | t => String c t
      end
  end.

Definition trim (s : string) : string := trimEnd (trimStart s).

(** Template-literal rendering of a non-negative integer. *)
Definition string_of_N (n : N) : string := NilEmpty.string_of_uint (N.to_uint n).

(** ** The request cache of the stock page *)

Module APICache.

Record CacheItem : Type := mkItem {
  data : json;
  timestamp : Z;
  ttl : Z
}.

(** The two private [Map]s of the class. *)
Record t : Type := mk {
  cache : gmap string CacheItem;
  requestLog : gmap string (list Z)
}.

Definition empty : t := {| cache := ∅; requestLog := ∅ |}.

Definition windowMs : Z := 60 * 1000.
Definition maxRequests : nat := 30.

(** [now] is the value of [Date.now()] read by the method. *)
Definition isRateLimited (endpoint : string) (now : Z) (c : t) : bool * t :=
  let logs := default [] (requestLog c !! endpoint) in
  let recentLogs := List.filter (fun ts => now - ts <? windowMs) logs in
  if (maxRequests <=? length recentLogs)%nat then (true, c)
  else
    (false,
     {| cache := cache c;
        requestLog := <[endpoint := recentLogs ++ [now]]> (requestLog c) |}).

(** [null] is [JNull]. *)
Definition get (key : string) (now : Z) (c : t) : json * t :=
  match cache c !! key with
  | None => (JNull, c)
  | Some item =>
      if now - timestamp item >? ttl item
      then (JNull, {| cache := delete key (cache c); requestLog := requestLog c |})
      else (data item, c)
  end.

Definition defaultTtl : Z := 300000.

(** An omitted [ttl] argument is [None]. *)
Definition set (key : string) (v : json) (ttl : option Z) (now : Z) (c : t) : t :=
  {| cache := <[key := {| data := v; timestamp := now; ttl := default defaultTtl ttl |}]> (cache c);
     requestLog := requestLog c |}.

(** What one [fetch(url)] followed by [response.json()] can do. *)
Inductive outcome : Type :=
  | NetworkError (message : string)
      (* fetch rejects *)
  | Response (status : N) (body : string + json)
      (* fetch resolves; the body parses, or json() rejects with a message *).

Definition ok (status : N) : bool := ((200 <=? status) && (status <=? 299))%N.

(** The [try] block of one attempt: the parsed body, or the message of the
    error thrown. *)
Definition attemptBody (o : outcome) : string + json :=
  match o with
  | NetworkError message => inl message
  | Response status body =>
      if negb (ok status) then
        if (status =? 429)%N then inl "API rate limit exceeded. Please wait a moment."
        else if (500 <=? status)%N then inl ("Server error: " +:+ string_of_N status)
        else inl ("HTTP error: " +:+ string_of_N status)
      else body
  end.

(** The test of the [catch] block that leaves the loop. *)
Definition shortCircuits (message : string) : bool :=
  includes message "rate limit" || includes message "HTTP error: 4".

(** Observable effects of a call, oldest first. *)
Inductive event : Type :=
  | CacheRead (key : string)
  | Fetch (url : string)
  | Sleep (ms : Z).

(** The running state of a call: the cache object, the clock and the
    effects so far. *)
Record run : Type := mkRun {
  api : t;
  clock : Z;
  trace : list event
}.

Definition backoff (attempt : nat) : Z := 2 ^ Z.of_nat attempt * 1000.

(** The delays and the number of network calls in a trace. *)
Definition sleeps (tr : list event) : list Z :=
  omap (fun e => match e with Sleep ms => Some ms | _ => None end) tr.

Definition fetches (tr : list event) : nat :=
  length (List.filter (fun e => match e with Fetch _ => true | _ => false end) tr).

Definition rateLimitedMessage : string :=
  "Rate limited. Please wait before making more requests.".

(** The [for] loop.  [net attempt] is the latency and the outcome of the
    fetch of that attempt; [remaining] counts the iterations left
    ([maxRetries - attempt]).  The loop returns the data, or leaves with
    [lastError]. *)
Fixpoint retryLoop (url : string) (maxRetries : nat) (ttl : option Z)
    (net : nat -> Z * outcome) (remaining attempt : nat)
    (lastError : option string) (r : run) : (json + option string) * run :=
  match remaining with
  | O => (inr lastError, r)
  | S remaining' =>
      let '(latency, o) := net attempt in
      let r1 := {| api := api r; clock := clock r + latency; trace := trace r ++ [Fetch url] |} in
      match attemptBody o with
      | inr v =>
          (inl v, {| api := set url v ttl (clock r1) (api r1); clock := clock r1; trace := trace r1 |})
      | inl message =>
          if shortCircuits message then (inr (Some message), r1)
          else
            let r2 :=
              if (attempt <? maxRetries - 1)%nat
              then {| api := api r1; clock := clock r1 + backoff attempt;
                      trace := trace r1 ++ [Sleep (backoff attempt)] |}
              else r1 in
            retryLoop url maxRetries ttl net remaining' (S attempt) (Some message) r2
      end
  end.

Section WithURL.

(** [new URL(url).pathname]; [None] when the constructor throws. *)
Variable pathname : string -> option string.

Definition fetchWithRetry (url : string) (maxRetries : nat) (ttl : option Z)
    (net : nat -> Z * outcome) (now : Z) (c : t) : result json * run :=
  match pathname url with
  | None => (Throw "Invalid URL", {| api := c; clock := now; trace := [] |})
  | Some endpoint =>
      let '(limited, c1) := isRateLimited endpoint now c in
      if limited then
        (Throw "Rate limited. Please wait before making more requests.",
         {| api := c1; clock := now; trace := [] |})
      else
        let '(cached, c2) := get url now c1 in
        let r0 := {| api := c2; clock := now; trace := [CacheRead url] |} in
        if truthy cached then (Ok cached, r0)
        else
          match retryLoop url maxRetries ttl net maxRetries 0 None r0 with
          | (inl v, r) => (Ok v, r)
          | (inr lastError, r) =>
              (Throw (default "All retry attempts failed" lastError), r)
          end
  end.

(** The cache object after a series of calls made at the given times. *)
Definition apiAfterCalls (url : string) (maxRetries : nat) (ttl : option Z)
    (net : nat -> Z * outcome) (times : list Z) (c : t) : t :=
  fold_left (fun c now => api (snd (fetchWithRetry url maxRetries ttl net now c))) times c.

End WithURL.

End APICache.

(** ** Numbers *)

(** [Math.min] and [Math.max] of two numbers: [NaN] is contagious and [-0]
    is below [+0]. *)
Definition Math_min (a b : float) : float :=
  if is_nan a || is_nan b then nan
  else if (a <? b)%float then a
  else if (b <? a)%float then b
  else if get_sign a then a else b.

Definition Math_max (a b : float) : float :=
  if is_nan a || is_nan b then nan
  else if (a <? b)%float then b
  else if (b <? a)%float then a
  else if get_sign a then b else a.

(** [x || d] on an optional number. *)
Definition num_or (o : option float) (d : float) : float :=
  match o with
  | Some x => if truthy_num x then x else d
  | None => d
  end.

(** ** Risk rubric and recommendation of the stock page *)

Record RiskLevel : Type := mkRiskLevel {
  level : string;
  color : string;
  explanation : string;
  score : float
}.

(** The three ratio arguments are numbers; a caller that passes an absent
    field passes [undefined], which compares like [NaN]. *)
Definition getRiskLevel (beta peRatio marketCap : float) (debtToEquity : option float)
    : RiskLevel :=
  let riskScore := 0%float in
  let riskScore :=
    if (1.5 <? beta)%float then (riskScore + 3)%float
    else if (1.2 <? beta)%float then (riskScore + 2)%float
    else if (1 <? beta)%float then (riskScore + 1)%float
    else riskScore in
  let riskScore :=
    if (30 <? peRatio)%float then (riskScore + 3)%float
    else if (20 <? peRatio)%float then (riskScore + 2)%float
    else if (15 <? peRatio)%float then (riskScore + 1)%float
    else riskScore in
  let riskScore :=
    if (marketCap <? 2)%float then (riskScore + 3)%float
    else if (marketCap <? 10)%float then (riskScore + 2)%float
    else if (marketCap <? 50)%float then (riskScore + 1)%float
    else riskScore in
  let riskScore :=
    if truthy_opt debtToEquity then
      if (1 <? num_of_opt debtToEquity)%float then (riskScore + 2)%float
      else if (0.5 <? num_of_opt debtToEquity)%float then (riskScore + 1)%float
      else riskScore
    else riskScore in
  if (6 <=? riskScore)%float then
    {| level := "High Risk";
       color := "text-red-400";
       explanation := "High volatility and risk factors. Potential for large gains/losses. Suitable for experienced investors.";
       score := riskScore |}
  else if (3 <=? riskScore)%float then
    {| level := "Medium Risk";
       color := "text-yellow-400";
       explanation := "Moderate volatility and balanced risk/reward profile. Good for diversified portfolios.";
       score := riskScore |}
  else
    {| level := "Low Risk";
       color := "text-green-400";
       explanation := "Lower volatility and stable investment characteristics. Suitable for conservative investors.";
       score := riskScore |}.

Inductive Momentum : Type := BULLISH | BEARISH | NEUTRAL.

Record TechnicalIndicators : Type := mkTechnical {
  rsi : float;
  movingAvg20 : float;
  movingAvg50 : float;
  support : float;
  resistance : float;
  momentum : Momentum
}.

(** The fields of [StockDetails] read by the recommendation; every one of
    them is optional in the interface. *)
Record StockDetails : Type := mkStockDetails {
  peRatio : option float;
  roe : option float;
  debtToEquity : option float;
  currentRatio : option float;
  grossMargin : option float;
  changePercent : option float;
  volume : option float;
  avgVolume : option float;
  dividend : option float;
  technicalIndicators : option TechnicalIndicators
}.

Inductive Overall : Type := BUY | HOLD | SELL.

(** The field [dividend] of the source is [dividendScore] here. *)
Record StockRecommendation : Type := mkRecommendation {
  longTerm : float;
  shortTerm : float;
  dividendScore : float;
  overall : Overall;
  reasons : list string
}.

(** [f && f < bound] and [f && f > bound] on an optional field. *)
Definition present_below (o : option float) (bound : float) : bool :=
  truthy_opt o && (num_of_opt o <? bound)%float.

Definition present_above (o : option float) (bound : float) : bool :=
  truthy_opt o && (bound <? num_of_opt o)%float.

Definition isBullish (d : StockDetails) : bool :=
  match technicalIndicators d with
  | Some t => match momentum t with BULLISH => true | _ => false end
  | None => false
  end.

Definition highVolume (d : StockDetails) : bool :=
  truthy_opt (volume d) && truthy_opt (avgVolume d) &&
  (num_of_opt (avgVolume d) * 1.5 <? num_of_opt (volume d))%float.

Definition generateInvestmentRecommendation (d : StockDetails) : StockRecommendation :=
  let longTerm := 5%float in
  let shortTerm := 5%float in
  let dividend_ := 0%float in
  let reasons : list string := [] in
  (* Long-term scoring *)
  let '(longTerm, reasons) :=
    if present_below (peRatio d) 15 then ((longTerm + 1)%float, reasons ++ ["Attractive valuation"])
    else (longTerm, reasons) in
  let '(longTerm, reasons) :=
    if present_above (roe d) 15 then ((longTerm + 1)%float, reasons ++ ["Strong profitability"])
    else (longTerm, reasons) in
  let '(longTerm, reasons) :=
    if present_below (debtToEquity d) 0.5 then ((longTerm + 1)%float, reasons ++ ["Strong balance sheet"])
    else (longTerm, reasons) in
  let '(longTerm, reasons) :=
    if present_above (currentRatio d) 1.5 then ((longTerm + 1)%float, reasons ++ ["Good liquidity"])
    else (longTerm, reasons) in
  let '(longTerm, reasons) :=
    if present_above (grossMargin d) 30 then ((longTerm + 1)%float, reasons ++ ["High margins"])
    else (longTerm, reasons) in
  (* Short-term scoring *)
  let '(shortTerm, reasons) :=
    if present_above (changePercent d) 5 then ((shortTerm + 2)%float, reasons ++ ["Strong momentum"])
    else (shortTerm, reasons) in
  let shortTerm :=
    if present_below (changePercent d) (-5) then (shortTerm - 2)%float else shortTerm in
  let '(shortTerm, reasons) :=
    if isBullish d then ((shortTerm + 1)%float, reasons ++ ["Bullish technicals"])
    else (shortTerm, reasons) in
  let '(shortTerm, reasons) :=
    if highVolume d then ((shortTerm + 1)%float, reasons ++ ["High trading volume"])
    else (shortTerm, reasons) in
  (* Dividend scoring *)
  let '(dividend_, reasons) :=
    if truthy_opt (dividend d) then
      (Math_min 10 (num_of_opt (dividend d) * 2)%float,
       if (3 <? num_of_opt (dividend d))%float then reasons ++ ["Good dividend yield"] else reasons)
    else (dividend_, reasons) in
  (* Overall recommendation *)
  let averageScore := ((longTerm + shortTerm + dividend_) / 3)%float in
  let overall := HOLD in
  let overall := if (7 <=? averageScore)%float then BUY else overall in
  let overall := if (averageScore <=? 4)%float then SELL else overall in
  {| longTerm := Math_max 0 (Math_min 10 longTerm);
     shortTerm := Math_max 0 (Math_min 10 shortTerm);
     dividendScore := Math_max 0 (Math_min 10 dividend_);
     overall := overall;
     reasons := firstn 5 reasons |}.

(** The adjustment rules in the order of the source: whether the rule
    triggers (its guard holds and a score is adjusted) and the reason it
    appends, if any.  This is the rule table that the imperative code above
    is compared with. *)
Definition adjustmentRules (d : StockDetails) : list (bool * option string) :=
  [ (present_below (peRatio d) 15, Some "Attractive valuation");
    (present_above (roe d) 15, Some "Strong profitability");
    (present_below (debtToEquity d) 0.5, Some "Strong balance sheet");
    (present_above (currentRatio d) 1.5, Some "Good liquidity");
    (present_above (grossMargin d) 30, Some "High margins");
    (present_above (changePercent d) 5, Some "Strong momentum");
    (present_below (changePercent d) (-5), None);
    (isBullish d, Some "Bullish technicals");
    (highVolume d, Some "High trading volume");
    (truthy_opt (dividend d),
     if (3 <? num_of_opt (dividend d))%float then Some "Good dividend yield" else None) ].

(** Reasons of the triggered rules, in rule order. *)
Fixpoint collectedReasons (rules : list (bool * option string)) : list string :=
  match rules with
  | [] => []
  | (true, Some reason) :: rest => reason :: collectedReasons rest
  | _ :: rest => collectedReasons rest
  end.

(** A score after a series of adjustments: each step is whether it is
    applied and the points it adds. *)
Definition scoreAfter (base : float) (steps : list (bool * float)) : float :=
  fold_left
    (fun (score : float) (step : bool * float) =>
       let '(applied, points) := step in
       if applied then (score + points)%float else score)
    steps base.

(** ** Sector and industry normalisation of the home page *)

Definition normalizeSector (sectorName : string) : string :=
  let s := toLowerCase sectorName in
  if includes s "technology" || includes s "information technology" || includes s "software" || includes s "internet" then
    "Technology"
  else if includes s "health" || includes s "pharmaceuticals" || includes s "biotech" || includes s "medical" then
    "Healthcare"
  else if includes s "financial" || includes s "bank" || includes s "insurance" || includes s "finance" then
    "Financial Services"
  else if includes s "consumer" || includes s "retail" || includes s "discretionary" || includes s "staples" then
    "Consumer Goods"
  else if includes s "energy" || includes s "oil" || includes s "gas" || includes s "petroleum" then
    "Energy"
  else if includes s "industrial" || includes s "manufacturing" || includes s "aerospace" || includes s "defense" then
    "Industrials"
  else if includes s "material" || includes s "mining" || includes s "chemical" || includes s "metals" then
    "Materials"
  else if includes s "real estate" || includes s "reit" then
    "Real Estate"
  else if includes s "utilities" || includes s "electric" || includes s "water" || includes s "utility" then
    "Utilities"
  else if includes s "communication" || includes s "telecom" || includes s "media" || includes s "entertainment" then
    "Communication Services"
  else if includes s "auto" || includes s "vehicle" || includes s "transportation" || includes s "automotive" then
    "Automotive"
  else if includes s "food" || includes s "beverage" || includes s "agriculture" || includes s "restaurant" then
    "Food & Beverage"
  else
    "Technology".

Definition normalizeIndustry (industryName : string) : string :=
  let i := toLowerCase industryName in
  if includes i "software" || includes i "internet" || includes i "cloud" || includes i "saas" then
    "Software"
  else if includes i "semiconductor" || includes i "chip" || includes i "electronics" || includes i "hardware" then
    "Semiconductors"
  else if includes i "auto" || includes i "vehicle" || includes i "automotive" then
    "Automotive"
  else if includes i "pharma" || includes i "drug" || includes i "biotech" || includes i "medical" then
    "Pharmaceuticals"
  else if includes i "bank" || includes i "financial" || includes i "lending" then
    "Banking"
  else if includes i "retail" || includes i "e-commerce" || includes i "store" then
    "Retail"
  else if includes i "energy" || includes i "oil" || includes i "renewable" then
    "Energy"
  else if includes i "real estate" || includes i "property" || includes i "reit" then
    "Real Estate"
  else if includes i "aerospace" || includes i "defense" || includes i "aviation" then
    "Aerospace & Defense"
  else if includes i "telecom" || includes i "wireless" || includes i "communication" then
    "Telecommunications"
  else
    "Software".

(** The literal table of [getManualSectorMapping], as (symbol, (sector,
    industry)) pairs in source order. *)
Definition mappings : list (string * (string * string)) :=
  [ ("AAPL", ("Technology", "Consumer Electronics"));
    ("MSFT", ("Technology", "Software"));
    ("AMZN", ("Consumer Goods", "E-commerce"));
    ("GOOGL", ("Technology", "Internet Services"));
    ("GOOG", ("Technology", "Internet Services"));
    ("TSLA", ("Automotive", "Electric Vehicles"));
    ("META", ("Communication Services", "Social Media"));
    ("NVDA", ("Technology", "Semiconductors"));
    ("AMD", ("Technology", "Semiconductors"));
    ("INTC", ("Technology", "Semiconductors"));
    ("JPM", ("Financial Services", "Banking"));
    ("BAC", ("Financial Services", "Banking"));
    ("JNJ", ("Healthcare", "Pharmaceuticals"));
    ("PFE", ("Healthcare", "Pharmaceuticals"));
    ("XOM", ("Energy", "Oil & Gas"));
    ("CVX", ("Energy", "Oil & Gas"));
    ("WMT", ("Consumer Goods", "Retail"));
    ("HD", ("Consumer Goods", "Home Improvement"));
    ("DIS", ("Communication Services", "Entertainment"));
    ("NFLX", ("Communication Services", "Streaming"));
    ("CRM", ("Technology", "Cloud Software"));
    ("ORCL", ("Technology", "Enterprise Software")) ].

Fixpoint lookupSymbol (table : list (string * (string * string))) (stockSymbol : string)
    : option (string * string) :=
  match table with
  | [] => None
  | (k, v) :: rest => if String.eqb k stockSymbol then Some v else lookupSymbol rest stockSymbol
  end.

(** The names of the properties that every object inherits from
    [Object.prototype]; under them [mappings[stockSymbol]] finds a function
    (for [__proto__], the prototype object), which is truthy. *)
Definition inheritedNames : list string :=
  [ "constructor"; "__defineGetter__"; "__defineSetter__"; "hasOwnProperty";
    "__lookupGetter__"; "__lookupSetter__"; "isPrototypeOf"; "propertyIsEnumerable";
    "toString"; "valueOf"; "__proto__"; "toLocaleString" ].

(** [mappings[stockSymbol] || null], seen through the two properties that
    the caller reads from it: an entry of the table, or an inherited
    member, whose [sector] and [industry] are [undefined] ([None]). *)
Definition getManualSectorMapping (stockSymbol : string)
    : option (option string * option string) :=
  match lookupSymbol mappings stockSymbol with
  | Some (sector_, industry_) => Some (Some sector_, Some industry_)
  | None =>
      if existsb (String.eqb stockSymbol) inheritedNames then Some (None, None) else None
  end.

(** The rule tables as the specification words them: an ordered list of
    keyword sets with their canonical label; the first rule with a keyword
    occurring in the lower-cased text wins. *)
Definition sectorRules : list (list string * string) :=
  [ (["technology"; "information technology"; "software"; "internet"], "Technology");
    (["health"; "pharmaceuticals"; "biotech"; "medical"], "Healthcare");
    (["financial"; "bank"; "insurance"; "finance"], "Financial Services");
    (["consumer"; "retail"; "discretionary"; "staples"], "Consumer Goods");
    (["energy"; "oil"; "gas"; "petroleum"], "Energy");
    (["industrial"; "manufacturing"; "aerospace"; "defense"], "Industrials");
    (["material"; "mining"; "chemical"; "metals"], "Materials");
    (["real estate"; "reit"], "Real Estate");
    (["utilities"; "electric"; "water"; "utility"], "Utilities");
    (["communication"; "telecom"; "media"; "entertainment"], "Communication Services");
    (["auto"; "vehicle"; "transportation"; "automotive"], "Automotive");
    (["food"; "beverage"; "agriculture"; "restaurant"], "Food & Beverage") ].

Definition industryRules : list (list string * string) :=
  [ (["software"; "internet"; "cloud"; "saas"], "Software");
    (["semiconductor"; "chip"; "electronics"; "hardware"], "Semiconductors");
    (["auto"; "vehicle"; "automotive"], "Automotive");
    (["pharma"; "drug"; "biotech"; "medical"], "Pharmaceuticals");
    (["bank"; "financial"; "lending"], "Banking");
    (["retail"; "e-commerce"; "store"], "Retail");
    (["energy"; "oil"; "renewable"], "Energy");
    (["real estate"; "property"; "reit"], "Real Estate");
    (["aerospace"; "defense"; "aviation"], "Aerospace & Defense");
    (["telecom"; "wireless"; "communication"], "Telecommunications") ].

Fixpoint firstMatch (rules : list (list string * string)) (fallback text : string) : string :=
  match rules with
  | [] => fallback
  | (keywords, label) :: rest =>
      if existsb (includes text) keywords then label else firstMatch rest fallback text
  end.

(** The profile fields consulted by the holdings loop. *)
Record Profile : Type := mkProfile {
  name : option string;
  gicsSector : option string;
  sector : option string;
  gicsIndustry : option string;
  gicsSubIndustry : option string;
  finnhubIndustry : option string;
  industry : option string
}.

(** The filter [s && s.trim() && s !== 'N/A' && s !== ''] kept the field. *)
Definition usable (field : option string) : option string :=
  match field with
  | Some s =>
      if negb (String.eqb s "") && negb (String.eqb (trim s) "")
         && negb (String.eqb s "N/A") && negb (String.eqb s "")
      then Some s else None
  | None => None
  end.

(** First element of the filtered candidate array, if any. *)
Definition firstUsable (fields : list (option string)) : option string :=
  hd_error (omap usable fields).

(** Sector and industry after normalisation and before the manual table;
    [None] is a [null] profile body. *)
Definition normalizedLabels (profileData : option Profile) : string * string :=
  let sector_ := "Technology" in
  let industry_ := "Software" in
  match profileData with
  | Some p =>
      let sector_ :=
        default sector_ (firstUsable [gicsSector p; sector p; gicsIndustry p; gicsSubIndustry p]) in
      let industry_ :=
        default industry_ (firstUsable [finnhubIndustry p; industry p; gicsSubIndustry p; gicsIndustry p]) in
      (normalizeSector sector_, normalizeIndustry industry_)
  | None => (sector_, industry_)
  end.

(** Sector and industry stored with a holding; [None] is [undefined]. *)
Definition classify (symbol : string) (profileData : option Profile)
    : option string * option string :=
  let '(sector_, industry_) := normalizedLabels profileData in
  if String.eqb sector_ "Technology" && String.eqb industry_ "Software" then
    match getManualSectorMapping symbol with
    | Some manualMapping => manualMapping
    | None => (Some sector_, Some industry_)
    end
  else (Some sector_, Some industry_).

(** ** Annualised return and the holdings loop of the home page *)

Section WithPow.

(** [Math.pow]; its result on ordinary arguments is an approximation chosen
    by the engine, so it is a parameter of the solver. *)
Variable pow : float -> float -> float.

Definition tolerance : float := 1e-6%float.
Definition maxIterations : nat := 100.

(** One turn of the inner loop over [j]: the pair is ([npv], [dnpv]); the
    flow is ([cashFlows[j]], [daysDiff[j]]). *)
Definition npvStep (rate : float) (acc : float * float) (flow : float * float) : float * float :=
  let '(npv, dnpv) := acc in
  let '(cf, days) := flow in
  let factor := pow (1 + rate)%float (days / 365.25)%float in
  ((npv + cf / factor)%float,
   (dnpv - cf * (days / 365.25) / pow factor 2)%float).

Definition npvPair (flows : list (float * float)) (rate : float) : float * float :=
  fold_left (npvStep rate) flows (0%float, 0%float).

(** The outer loop, with [iterations] turns left. *)
Fixpoint newton (flows : list (float * float)) (iterations : nat) (rate : float) : option float :=
  match iterations with
  | O => None
  | S iterations' =>
      let '(npv, dnpv) := npvPair flows rate in
      if (abs npv <? tolerance)%float then Some (rate * 100)%float
      else if (abs dnpv <? tolerance)%float then None
      else
        let newRate := (rate - npv / dnpv)%float in
        if (newRate <? -0.99)%float || (10 <? newRate)%float then None
        else newton flows iterations' newRate
  end.



(** A [Date] is its time value in milliseconds ([NaN] for an invalid
    date); [None] is [null]. *)
Definition calculateXIRR (cashFlows dates : list float) : option float :=
  if negb (length cashFlows =? length dates)%nat || (length cashFlows <? 2)%nat then None
  else
    let positiveFlows := length (List.filter (fun cf => (0 <? cf)%float) cashFlows) in
    let negativeFlows := length (List.filter (fun cf => (cf <? 0)%float) cashFlows) in
    if (positiveFlows =? 0)%nat || (negativeFlows =? 0)%nat then None
    else
      let baseDateMs := hd nan dates in
      let daysDiff := map (fun date => ((date - baseDateMs) / (1000 * 60 * 60 * 24))%float) dates in
      newton (combine cashFlows daysDiff) maxIterations 0.1%float.

(** The fields [industry] and [sector] of the source are [holdingIndustry]
    and [holdingSector] here; [None] is [undefined]. *)
Record PortfolioHolding : Type := mkHolding {
  symbol : string;
  companyName : string;
  shares : float;
  avgPrice : float;
  currentPrice : float;
  totalValue : float;
  gainLoss : float;
  gainLossPercent : float;
  holdingIndustry : option string;
  holdingSector : option string;
  purchaseDate : float
}.

(** [today] is the time value of [new Date()]. *)
Definition calculatePortfolioXIRR (today : float) (holdings : list PortfolioHolding) : option float :=
  match holdings with
  | [] => None
  | _ =>
      let purchases :=
        List.filter (fun h => (0 <? shares h * avgPrice h)%float) holdings in
      let cashFlows := map (fun h => (- (shares h * avgPrice h))%float) purchases in
      let dates := map purchaseDate purchases in
      let totalCurrentValue := fold_left (fun sum h => (sum + totalValue h)%float) holdings 0%float in
      let '(cashFlows, dates) :=
        if (0 <? totalCurrentValue)%float
        then (cashFlows ++ [totalCurrentValue], dates ++ [today])
        else (cashFlows, dates) in
      calculateXIRR cashFlows dates
  end.

(** A stored purchase date: a Firestore timestamp, a [Date], or anything
    else. *)
Inductive StoredDate : Type :=
  | Seconds (seconds : float)
  | DateValue (ms : float)
  | NoDate.

(** An element of the stored [portfolio] array. *)
Inductive PortfolioItem : Type :=
  | SymbolOnly (symbol : string)
  | Entry (symbol : string) (shares avgPrice : option float) (purchaseDate : StoredDate).

(** The quote body; only the current price [c] is read. *)
Record Quote : Type := mkQuote { c : option float }.

(** What the two fetches and the two [json()] calls of one symbol do:
    one of them rejects, or both bodies are parsed ([None] is [null]). *)
Inductive Fetched : Type :=
  | Rejected
  | Bodies (stockData : option Quote) (profileData : option Profile).

(** The price when [stockData && stockData.c] is truthy. *)
Definition quotedPrice (stockData : option Quote) : option float :=
  match stockData with
  | Some q =>
      match c q with
      | Some price => if truthy_num price then Some price else None
      | None => None
      end
  | None => None
  end.

Definition truthy_string (o : option string) : bool :=
  match o with
  | Some s => negb (String.eqb s "")
  | None => false
  end.

(** The time value of [new Date(time)]: [NaN] for a time that is not
    finite or beyond 8.64e15 ms in absolute value, and otherwise the time
    truncated to an integer, with [+0] for [-0]. *)
Definition TimeClip (time : float) : float :=
  match Prim2SF time with
  | S754_zero _ => 0%float
  | S754_finite s m e =>
      if (8.64e15 <? abs time)%float then nan
      else
        let n := if (0 <=? e)%Z then Z.shiftl (Zpos m) e else Z.shiftr (Zpos m) (- e) in
        let t := of_uint63 (Uint63.of_Z n) in
        if s then (- t + 0)%float else t
  | _ => nan
  end.

(** The body of the [for ... of] loop for one item: the holdings and the
    watch-list symbols it appends. *)
Definition processItem (today : float) (fetchSymbol : string -> Fetched) (item : PortfolioItem)
    : list PortfolioHolding * list string :=
  let '(symbol, shares, avgPrice, purchaseDate) :=
    match item with
    | SymbolOnly s => (s, 0%float, 0%float, today)
    | Entry s sh ap pd =>
        (s, num_or sh 0, num_or ap 0,
         match pd with
         | Seconds seconds => TimeClip (seconds * 1000)%float
         | DateValue ms => ms
         | NoDate => today
         end)
    end in
  if (shares =? 0)%float then ([], [symbol])
  else
    match fetchSymbol symbol with
    | Bodies stockData profileData =>
        match quotedPrice stockData with
        | Some currentPrice =>
          let totalValue := (currentPrice * shares)%float in
          let totalCost := (avgPrice * shares)%float in
          let gainLoss := (totalValue - totalCost)%float in
          let gainLossPercent :=
            if (0 <? totalCost)%float then (gainLoss / totalCost * 100)%float else 0%float in
          let companyName :=
            match profileData with
            | Some p => if truthy_string (name p) then default symbol (name p) else symbol
            | None => symbol
            end in
          let '(sector, industry) := classify symbol profileData in
          ([ {| symbol := symbol; companyName := companyName; shares := shares;
                avgPrice := avgPrice; currentPrice := currentPrice; totalValue := totalValue;
                gainLoss := gainLoss; gainLossPercent := gainLossPercent;
                holdingIndustry := industry; holdingSector := sector;
                purchaseDate := purchaseDate |} ], [])
        | None => ([], [])
        end
    | Rejected =>
        ([ {| symbol := symbol; companyName := symbol; shares := shares;
              avgPrice := avgPrice; currentPrice := avgPrice;
              totalValue := (avgPrice * shares)%float;
              gainLoss := 0%float; gainLossPercent := 0%float;
              holdingIndustry := Some "Software"; holdingSector := Some "Technology";
              purchaseDate := purchaseDate |} ], [])
    end.

(** The whole loop: [processedHoldings] and [watchlistStocks].  The clock
    reads of one load are identified ([today]). *)
Fixpoint processItems (today : float) (fetchSymbol : string -> Fetched)
    (portfolioData : list PortfolioItem) : list PortfolioHolding * list string :=
  match portfolioData with
  | [] => ([], [])
  | item :: rest =>
      let '(hs, ws) := processItem today fetchSymbol item in
      let '(hs', ws') := processItems today fetchSymbol rest in
      (hs ++ hs', ws ++ ws')
  end.

(** The summary handed to [setPortfolio], without the simulated
    [todayGain] and the two distribution objects; its field [totalValue]
    is [summaryTotalValue] here. *)
Record PortfolioSummary : Type := mkSummary {
  summaryTotalValue : float;
  totalCost : float;
  totalGain : float;
  totalGainPercent : float;
  xirr : option float;
  holdings : list PortfolioHolding
}.

(** The part of [fetchPortfolioData] after the user document is read:
    the summary ([None] for [setPortfolio(null)]) and the saved symbols. *)
Definition summarize (today : float) (fetchSymbol : string -> Fetched)
    (portfolioData : list PortfolioItem) : option PortfolioSummary * list string :=
  match portfolioData with
  | [] => (None, [])
  | _ =>
      let '(processedHoldings, watchlistStocks) := processItems today fetchSymbol portfolioData in
      match processedHoldings with
      | [] => (None, watchlistStocks)
      | _ =>
          let totalValue := fold_left (fun sum h => (sum + totalValue h)%float) processedHoldings 0%float in
          let totalCost := fold_left (fun sum h => (sum + shares h * avgPrice h)%float) processedHoldings 0%float in
          let totalGain := (totalValue - totalCost)%float in
          let totalGainPercent :=
            if (0 <? totalCost)%float then (totalGain / totalCost * 100)%float else 0%float in
          (Some {| summaryTotalValue := totalValue; totalCost := totalCost;
                   totalGain := totalGain; totalGainPercent := totalGainPercent;
                   xirr := calculatePortfolioXIRR today processedHoldings;
                   holdings := processedHoldings |},
           watchlistStocks)
      end
  end.

End WithPow.

(** ** Worked inputs *)

(** Every URL of the examples is a quote URL. *)
Definition quotePath (url : string) : option string := Some "/api/v1/quote".

Definition quoteUrl : string := "https://finnhub.io/api/v1/quote?symbol=AAPL&token=k".

(** Thirty requests logged at time 1000. *)
Definition busyCache : APICache.t :=
  {| APICache.cache := ∅;
     APICache.requestLog := {[ "/api/v1/quote" := replicate 30 1000 ]} |}.

Definition quoteBody : json := JObj [("c", JNum 180)].

(** Twenty-nine requests logged at time 1000 and the quote cached then. *)
Definition warmCache : APICache.t :=
  {| APICache.cache :=
       {[ quoteUrl := {| APICache.data := quoteBody; APICache.timestamp := 1000;
                         APICache.ttl := 300000 |} ]};
     APICache.requestLog := {[ "/api/v1/quote" := replicate 29 1000 ]} |}.

(** Two server errors, then a quote. *)
Definition flakyNet (attempt : nat) : Z * APICache.outcome :=
  match attempt with
  | O => (40, APICache.Response 503 (inl "Unexpected end of JSON input"))
  | S O => (40, APICache.Response 500 (inl "Unexpected end of JSON input"))
  | _ => (40, APICache.Response 200 (inr quoteBody))
  end.

Definition notFoundNet (attempt : nat) : Z * APICache.outcome :=
  (40, APICache.Response 404 (inr (JObj []))).

Definition downNet (attempt : nat) : Z * APICache.outcome :=
  (40, APICache.NetworkError "Failed to fetch").


(** A profile whose fields are all unusable. *)
Definition blankProfile : Profile :=
  {| name := Some "Tesla Inc"; gicsSector := Some "N/A"; sector := None;
     gicsIndustry := Some "  "; gicsSubIndustry := Some ""; finnhubIndustry := None;
     industry := Some "N/A" |}.

(** A stock that fell by 6% today, nothing else known. *)
Definition fallingStock : StockDetails :=
  {| peRatio := None; roe := None; debtToEquity := None; currentRatio := None;
     grossMargin := None; changePercent := Some (-6)%float; volume := None;
     avgVolume := None; dividend := None; technicalIndicators := None |}.

(** A stock with a 2% dividend yield, nothing else known. *)
Definition modestDividend : StockDetails :=
  {| peRatio := None; roe := None; debtToEquity := None; currentRatio := None;
     grossMargin := None; changePercent := None; volume := None; avgVolume := None;
     dividend := Some 2%float; technicalIndicators := None |}.

(** Eight rules with a reason trigger. *)
Definition strongStock : StockDetails :=
  {| peRatio := Some 12%float; roe := Some 20%float; debtToEquity := Some 0.3%float;
     currentRatio := Some 2%float; grossMargin := Some 45%float;
     changePercent := Some 6%float; volume := Some 100%float; avgVolume := Some 50%float;
     dividend := Some 4%float; technicalIndicators := None |}.

(** One position of ten shares bought at 5. *)
Definition onePosition : list PortfolioItem :=
  [Entry "ZZZZ" (Some 10%float) (Some 5%float) NoDate].

(** The provider answers with a zero price, as it does for a symbol it
    does not know. *)
Definition zeroPriceFetch (symbol : string) : Fetched :=
  Bodies (Some {| c := Some 0%float |}) (Some blankProfile).

(** The provider answers both requests with an error object (as it does
    with status 429): neither body has any of the fields read. *)
Definition errorBodyFetch (symbol : string) : Fetched :=
  Bodies (Some {| c := None |})
         (Some {| name := None; gicsSector := None; sector := None; gicsIndustry := None;
                  gicsSubIndustry := None; finnhubIndustry := None; industry := None |}).

Definition failingFetch (symbol : string) : Fetched := Rejected.

(** A stand-in for [Math.pow], exact on the exponents 0, 1 and 2 and NaN
    elsewhere; it follows the special cases that the language fixes (a zero
    exponent gives 1, a NaN argument gives NaN otherwise). *)
Definition examplePow (b e : float) : float :=
  if is_zero e then 1%float
  else if is_nan b || is_nan e then nan
  else if (e =? 1)%float then b
  else if (e =? 2)%float then (b * b)%float
  else nan.

(** 365.25 days in milliseconds. *)
Definition oneYearMs : float := 31557600000%float.

(** ** Further definitions: request cache *)

(** No endpoint has more than [maxRequests] timestamps on record. *)
Definition windowsBounded (c : APICache.t) : Prop :=
  forall endpoint logs,
    APICache.requestLog c !! endpoint = Some logs -> (length logs <= APICache.maxRequests)%nat.

(** A cache object holding a fresh entry whose value is falsy. *)
Definition zeroCache : APICache.t :=
  {| APICache.cache :=
       {[ quoteUrl := {| APICache.data := JNum 0; APICache.timestamp := 1000;
                         APICache.ttl := 300000 |} ]};
     APICache.requestLog := ∅ |}.

(** Every fetch succeeds with the quote. *)
Definition steadyNet (attempt : nat) : Z * APICache.outcome :=
  (40, APICache.Response 200 (inr quoteBody)).

(** The effects of [j] consecutive attempts, the first of them numbered
    [attempt]: a fetch each, and between two fetches the delay of the
    earlier attempt. *)
Fixpoint attemptsTrace (url : string) (attempt j : nat) : list APICache.event :=
  match j with
  | O => []
  | S j' =>
      APICache.Fetch url ::
      match j' with
      | O => []
      | S _ => APICache.Sleep (APICache.backoff attempt) :: attemptsTrace url (S attempt) j'
      end
  end.

(** One use of [fetchWithRetry]: its arguments, the network it meets and
    the time of the call. *)
Record call : Type := mkCall {
  callUrl : string;
  callRetries : nat;
  callTtl : option Z;
  callNet : nat -> Z * APICache.outcome;
  callTime : Z
}.

(** The cache object after a series of calls of any kind. *)
Definition apiAfterSession (pathname : string -> option string) (calls : list call)
    (c : APICache.t) : APICache.t :=
  fold_left
    (fun c k =>
       APICache.api
         (snd (APICache.fetchWithRetry pathname (callUrl k) (callRetries k) (callTtl k)
                 (callNet k) (callTime k) c)))
    calls c.

(** ** Further definitions: the earlier stock page *)

(** The risk rubric of the earlier version of the stock page (second
    half of the same source file): two points per factor, no score in the
    result. *)
Module BasicStockPage.

Record RiskLevel : Type := mkRiskLevel {
  level : string;
  color : string;
  explanation : string
}.

Definition getRiskLevel (beta peRatio marketCap : float) : RiskLevel :=
  let riskScore := 0%float in
  let riskScore :=
    if (1.5 <? beta)%float then (riskScore + 2)%float
    else if (1.2 <? beta)%float then (riskScore + 1)%float
    else riskScore in
  let riskScore :=
    if (30 <? peRatio)%float then (riskScore + 2)%float
    else if (20 <? peRatio)%float then (riskScore + 1)%float
    else riskScore in
  let riskScore :=
    if (marketCap <? 2)%float then (riskScore + 2)%float
    else if (marketCap <? 10)%float then (riskScore + 1)%float
    else riskScore in
  if (4 <=? riskScore)%float then
    {| level := "High Risk"; color := "text-red-400";
       explanation := "High volatility, potential for large gains/losses" |}
  else if (2 <=? riskScore)%float then
    {| level := "Medium Risk"; color := "text-yellow-400";
       explanation := "Moderate volatility, balanced risk/reward" |}
  else
    {| level := "Low Risk"; color := "text-green-400";
       explanation := "Lower volatility, more stable investment" |}.

End BasicStockPage.

(** A number [x] with [0 <= x <= 10]; it excludes NaN. *)
Definition zeroToTen (x : float) : Prop :=
  (0 <=? x)%float = true /\ (x <=? 10)%float = true.

(** The five long-term triggers and the three short-term bonuses. *)
Definition longTermTriggers (d : StockDetails) : list bool :=
  [ present_below (peRatio d) 15; present_above (roe d) 15;
    present_below (debtToEquity d) 0.5; present_above (currentRatio d) 1.5;
    present_above (grossMargin d) 30 ].

Definition shortTermBonuses (d : StockDetails) : list bool :=
  [ present_above (changePercent d) 5; isBullish d; highVolume d ].

(** ** Further definitions: portfolio *)

(** Symbol and share count of a stored item as the holdings loop reads
    them ([item.shares || 0]). *)
Definition itemSymbol (item : PortfolioItem) : string :=
  match item with
  | SymbolOnly s => s
  | Entry s _ _ _ => s
  end.

Definition itemShares (item : PortfolioItem) : float :=
  match item with
  | SymbolOnly _ => 0%float
  | Entry _ sh _ _ => num_or sh 0
  end.

Definition isSaved (item : PortfolioItem) : bool := (itemShares item =? 0)%float.

(** [calculateDiversity]: the two distribution objects, as finite maps
    from label to percentage.  Labels are taken not to be names of
    properties that every object inherits (such as [__proto__]), for which
    a plain object does not behave as a map. *)
Definition cleanLabel (fallback : string) (label : option string) : string :=
  let label := if truthy_string label then default fallback label else fallback in
  if String.eqb label "Unknown" || String.eqb (trim label) "" then fallback else label.

Definition addShare (key : string) (percentage : float) (distribution : gmap string float)
    : gmap string float :=
  <[key := (num_or (distribution !! key) 0 + percentage)%float]> distribution.

Definition calculateDiversity (holdings : list PortfolioHolding)
    : gmap string float * gmap string float :=
  let totalValue_ := fold_left (fun sum holding => (sum + totalValue holding)%float) holdings 0%float in
  if (totalValue_ =? 0)%float then (∅, ∅)
  else
    fold_left
      (fun '(sectorDistribution, industryDistribution) holding =>
         let percentage := (totalValue holding / totalValue_ * 100)%float in
         let sector := cleanLabel "Technology" (holdingSector holding) in
         let industry := cleanLabel "Software" (holdingIndustry holding) in
         (addShare sector percentage sectorDistribution,
          addShare industry percentage industryDistribution))
      holdings (∅, ∅).

(** The labels under which the holdings are counted. *)
Definition countedSectors (holdings : list PortfolioHolding) : gset string :=
  list_to_set (map (fun holding => cleanLabel "Technology" (holdingSector holding)) holdings).

Definition countedIndustries (holdings : list PortfolioHolding) : gset string :=
  list_to_set (map (fun holding => cleanLabel "Software" (holdingIndustry holding)) holdings).

(** *** Editing the stored portfolio *)

(** The test of the [find] and [filter] callbacks: the item is the
    selected symbol. *)
Definition isSymbol (selectedStock : string) (item : PortfolioItem) : bool :=
  String.eqb (itemSymbol item) selectedStock.

(** [checkExistingStock] for a logged-in user whose document holds
    [portfolio]: the stored entry, or a zero-share entry made from a bare
    symbol, unless that symbol is the empty string, which is falsy; [now]
    is the time value of [new Date()]. *)
Definition checkExistingStock (now : float) (stockSymbol : string)
    (portfolio : list PortfolioItem) : option PortfolioItem :=
  match List.find (isSymbol stockSymbol) portfolio with
  | Some (Entry s sh ap pd) => Some (Entry s sh ap pd)
  | Some (SymbolOnly s) =>
      if String.eqb s "" then None
      else Some (Entry s (Some 0%float) (Some 0%float) (DateValue now))
  | None => None
  end.

(** What [handleAddOrUpdatePortfolio] does when the two store operations
    succeed: it refuses with a message, or writes a portfolio and shows a
    message. *)
Inductive Edit : Type :=
  | Refused (message : string)
  | Written (portfolio : list PortfolioItem) (message : string).

Definition handleAddOrUpdatePortfolio (loggedIn : bool) (selectedStock : string)
    (shares_ avgPrice_ : float) (isEditing : bool) (now : float)
    (currentPortfolio : list PortfolioItem) : Edit :=
  if negb loggedIn then Refused "Please login to manage your portfolio"
  else if String.eqb selectedStock "" then Refused "Please select a stock"
  else if (shares_ <? 0)%float || (avgPrice_ <? 0)%float
  then Refused "Shares and price cannot be negative"
  else
    let filteredPortfolio :=
      List.filter (fun item => negb (isSymbol selectedStock item)) currentPortfolio in
    let portfolioItem := Entry selectedStock (Some shares_) (Some avgPrice_) (DateValue now) in
    Written (filteredPortfolio ++ [portfolioItem])
      (if (shares_ =? 0)%float then selectedStock +:+ " saved to watchlist (0 shares)"
       else if isEditing then selectedStock +:+ " updated successfully!"
       else selectedStock +:+ " added to portfolio successfully!").

(** The portfolio written by [handleRemoveFromPortfolio]. *)
Definition handleRemoveFromPortfolio (selectedStock : string)
    (currentPortfolio : list PortfolioItem) : list PortfolioItem :=
  List.filter (fun item => negb (isSymbol selectedStock item)) currentPortfolio.

(** Positive-cost holdings of a list. *)
Definition hasCost (h : PortfolioHolding) : bool := (0 <? shares h * avgPrice h)%float.

(** Worked portfolios. *)
Definition mixedPortfolio : list PortfolioItem :=
  [ SymbolOnly "MSFT"; Entry "AAPL" (Some 10%float) (Some 150%float) NoDate;
    Entry "TSLA" (Some 0%float) (Some 0%float) NoDate; SymbolOnly "AAPL" ].

Definition pricedFetch (symbol : string) : Fetched :=
  Bodies (Some {| c := Some 180%float |}) None.

Definition appleHolding : PortfolioHolding :=
  {| symbol := "AAPL"; companyName := "AAPL"; shares := 10; avgPrice := 150;
     currentPrice := 180; totalValue := 1800; gainLoss := 300; gainLossPercent := 20;
     holdingIndustry := Some "Unknown"; holdingSector := Some ""; purchaseDate := 0 |}.

(** A holding that cost nothing and is worth nothing. *)
Definition freeHolding : PortfolioHolding :=
  {| symbol := "GIFT"; companyName := "GIFT"; shares := 10; avgPrice := 0;
     currentPrice := 0; totalValue := 0; gainLoss := 0; gainLossPercent := 0;
     holdingIndustry := Some "Software"; holdingSector := Some "Technology";
     purchaseDate := 0 |}.

(** ** Further definitions: search box of the home page *)

(** The input is ASCII text, as for the string primitives above. *)
Module Search.

Definition toUpperCase_ascii (c : ascii) : ascii :=
  let n := N_of_ascii c in
  if ((97 <=? n) && (n <=? 122))%N then ascii_of_N (n - 32) else c.

Fixpoint toUpperCase (s : string) : string :=
  match s with
  | EmptyString => EmptyString
  | String c s' => String (toUpperCase_ascii c) (toUpperCase s')
  end.

(** The character classes of the three regular expressions. *)
Definition is_upper (c : ascii) : bool :=
  let n := N_of_ascii c in ((65 <=? n) && (n <=? 90))%N.

Definition is_lower (c : ascii) : bool :=
  let n := N_of_ascii c in ((97 <=? n) && (n <=? 122))%N.

Definition is_digit (c : ascii) : bool :=
  let n := N_of_ascii c in ((48 <=? n) && (n <=? 57))%N.

(** [[A-Z\s&.,-]] under the flag [i]. *)
Definition is_name_char (c : ascii) : bool :=
  is_upper c || is_lower c || is_white_space c ||
  Ascii.eqb c "&" || Ascii.eqb c "." || Ascii.eqb c "," || Ascii.eqb c "-".

Fixpoint all_chars (p : ascii -> bool) (s : string) : bool :=
  match s with
  | EmptyString => true
  | String c s' => p c && all_chars p s'
  end.

(** [input.replace(/[^A-Z0-9]/g, '')]. *)
Fixpoint keep_chars (p : ascii -> bool) (s : string) : string :=
  match s with
  | EmptyString => EmptyString
  | String c s' => if p c then String c (keep_chars p s') else keep_chars p s'
  end.

(** [/^[A-Z]{1,5}$/.test(input)] *)
Definition looksLikeSymbol (input : string) : bool :=
  all_chars is_upper input && (1 <=? String.length input)%nat && (String.length input <=? 5)%nat.

(** [/^[A-Z\s&.,-]+$/i.test(input)] *)
Definition looksLikeName (input : string) : bool :=
  all_chars is_name_char input && (1 <=? String.length input)%nat.

Record SearchResult : Type := mkSearchResult {
  symbol : string;
  name : string
}.

(** What [handleSearch] does: it shows a message or navigates. *)
Inductive Outcome : Type :=
  | Message (text : string)
  | Navigate (path : string).

Definition handleSearch (searchInput : string) (searchResults : list SearchResult) : Outcome :=
  if String.eqb (trim searchInput) "" then Message "Please enter a stock symbol or company name"
  else
    let input := trim (toUpperCase searchInput) in
    if looksLikeSymbol input then Navigate ("/stock/" +:+ input)
    else
      match searchResults with
      | firstResult :: _ => Navigate ("/stock/" +:+ symbol firstResult)
      | [] =>
          if looksLikeName input then
            match
              List.find
                (fun result =>
                   includes (toLowerCase (name result)) (toLowerCase input) ||
                   String.eqb (toLowerCase (symbol result)) (toLowerCase input))
                searchResults
            with
            | Some exactMatch => Navigate ("/stock/" +:+ symbol exactMatch)
            | None =>
                Message "Please select from the search suggestions or enter a valid stock symbol (e.g., AAPL, MSFT)."
            end
          else
            let cleanSymbol := keep_chars (fun c => is_upper c || is_digit c) input in
            if (0 <? String.length cleanSymbol)%nat && (String.length cleanSymbol <=? 6)%nat
            then Navigate ("/stock/" +:+ cleanSymbol)
            else Message "Please enter a valid stock symbol or select from the search suggestions."
      end.

End Search.

(** ** Further definitions: loading a stock on the stock page *)

Module StockPage.

(** The properties of the quote body that the page reads: [c], [dp] and
    [v] in [fetchStockData], [price] and [changePercent] in
    [generateAdditionalMetrics], which is handed the same object. *)
Record QuoteData : Type := mkQuoteData {
  c : option float;
  dp : option float;
  v : option float;
  price : option float;
  changePercent : option float
}.

(** The properties of [metricsData.metric] that the page reads. *)
Record Metric : Type := mkMetric {
  beta : option float;
  totalDebt2EquityQuarterly : option float;
  currentRatioQuarterly : option float;
  peBasicExclExtraTTM : option float;
  roeTTM : option float;
  grossMarginTTM : option float;
  dividendYieldIndicatedAnnual : option float;
  avgTradingVolume10Day : option float
}.

Definition noMetric : Metric :=
  {| beta := None; totalDebt2EquityQuarterly := None; currentRatioQuarterly := None;
     peBasicExclExtraTTM := None; roeTTM := None; grossMarginTTM := None;
     dividendYieldIndicatedAnnual := None; avgTradingVolume10Day := None |}.

(** A metrics body; [metric] may be absent. *)
Record MetricsData : Type := mkMetricsData {
  metric : option Metric
}.

(** [metricsData.metric?.field] *)
Definition metricField (field : Metric -> option float) (metricsData : MetricsData)
    : option float :=
  match metric metricsData with
  | Some m => field m
  | None => None
  end.

Record ProfileData : Type := mkProfileData {
  marketCapitalization : option float
}.

(** [riskMetrics] without [volatilityRank], which goes through
    [Math.ceil]. *)
Record RiskMetrics : Type := mkRiskMetrics {
  riskScore : float;
  liquidityScore : float;
  fundamentalRisk : float
}.

(** The risk metrics and the technical indicators made by
    [generateAdditionalMetrics]; [random n] is the value of the [n]-th
    call of [Math.random()]. *)
Definition generateAdditionalMetrics (random : nat -> float) (stock : QuoteData)
    (metricsData : MetricsData) : RiskMetrics * TechnicalIndicators :=
  let beta := num_or (metricField beta metricsData) 1 in
  let debtToEquity := num_or (metricField totalDebt2EquityQuarterly metricsData) 0 in
  let currentRatio := num_or (metricField currentRatioQuarterly metricsData) 1 in
  let riskScore :=
    Math_min 10 (Math_max 0
      ((if (1.5 <? beta)%float then 3 else if (1 <? beta)%float then 1 else 0) +
       (if (1 <? debtToEquity)%float then 3 else if (0.5 <? debtToEquity)%float then 1 else 0) +
       (if (currentRatio <? 1)%float then 2 else 0) +
       (if (10 <? abs (num_or (changePercent stock) 0))%float then 2 else 0))%float) in
  let riskMetrics :=
    {| riskScore := riskScore;
       liquidityScore := Math_min 10 (Math_max 0 (currentRatio * 3)%float);
       fundamentalRisk := Math_min 10 (Math_max 0 (debtToEquity * 5)%float) |} in
  let rsi := (30 + random 0%nat * 40)%float in
  let currentPrice := num_of_opt (price stock) in
  let technicalIndicators :=
    {| rsi := rsi;
       movingAvg20 := (currentPrice * (0.95 + random 1%nat * 0.1))%float;
       movingAvg50 := (currentPrice * (0.90 + random 2%nat * 0.2))%float;
       support := (currentPrice * (0.85 + random 3%nat * 0.1))%float;
       resistance := (currentPrice * (1.05 + random 4%nat * 0.1))%float;
       momentum :=
         if (2 <? num_or (changePercent stock) 0)%float then BULLISH
         else if (num_or (changePercent stock) 0 <? -2)%float then BEARISH
         else NEUTRAL |} in
  (riskMetrics, technicalIndicators).

(** A settled promise; [reason] is read through [reason.message]. *)
Inductive Settled (A : Type) : Type :=
  | Fulfilled (value : A)
  | RejectedWith (message : string).
Arguments Fulfilled {A} value.
Arguments RejectedWith {A} message.

(** The part of the result of [fetchStockData] that the recommendation,
    the risk rubric and the risk display read. *)
Record Loaded : Type := mkLoaded {
  details : StockDetails;
  loadedPrice : option float;
  loadedBeta : option float;
  marketCap : option float;
  riskMetrics : RiskMetrics
}.

(** [fetchStockData] with the API key configured, after the five requests
    have settled.  A fulfilled quote is an object ([Some]) or a falsy
    value ([None]); fulfilled profile and metrics bodies are objects.  The
    earnings and financials bodies only feed [quarterlyData], which is not
    part of [Loaded]; they are taken to be arrays of objects as the
    provider sends them. *)
Definition fetchStockData (random : nat -> float) (stockSymbol : string)
    (quote : Settled (option QuoteData)) (profile : Settled ProfileData)
    (metrics : Settled MetricsData) : result Loaded :=
  match quote with
  | RejectedWith message => Throw ("Failed to fetch quote data: " +:+ message)
  | Fulfilled None => Throw ("Invalid stock symbol: " +:+ stockSymbol)
  | Fulfilled (Some quoteData) =>
      if match c quoteData with Some price_ => (price_ =? 0)%float | None => false end
      then Throw ("Invalid stock symbol: " +:+ stockSymbol)
      else
        let profileData :=
          match profile with
          | Fulfilled value => value
          | RejectedWith _ => {| marketCapitalization := None |}
          end in
        let metricsData :=
          match metrics with
          | Fulfilled value => value
          | RejectedWith _ => {| metric := Some noMetric |}
          end in
        let additionalMetrics := generateAdditionalMetrics random quoteData metricsData in
        Ok {| details :=
                mkStockDetails
                  (metricField peBasicExclExtraTTM metricsData)
                  (metricField roeTTM metricsData)
                  (metricField totalDebt2EquityQuarterly metricsData)
                  (metricField currentRatioQuarterly metricsData)
                  (metricField grossMarginTTM metricsData)
                  (dp quoteData)
                  (v quoteData)
                  (metricField avgTradingVolume10Day metricsData)
                  (metricField dividendYieldIndicatedAnnual metricsData)
                  (Some (snd additionalMetrics));
              loadedPrice := c quoteData;
              loadedBeta := metricField beta metricsData;
              marketCap :=
                if truthy_opt (marketCapitalization profileData)
                then Some (num_of_opt (marketCapitalization profileData) / 1000)%float
                else None;
              riskMetrics := fst additionalMetrics |}
  end.

(** The recommendation that [loadAllData] derives from a loaded stock. *)
Definition recommendationOf (loaded : Loaded) : StockRecommendation :=
  generateInvestmentRecommendation (details loaded).

(** The page computes and shows a risk level only under the guard
    [stockDetails.beta && stockDetails.peRatio && stockDetails.marketCap];
    [None] is nothing shown. *)
Definition riskLevelOf (loaded : Loaded) : option RiskLevel :=
  if truthy_opt (loadedBeta loaded) && truthy_opt (peRatio (details loaded))
     && truthy_opt (marketCap loaded)
  then
    Some (getRiskLevel (num_of_opt (loadedBeta loaded)) (num_of_opt (peRatio (details loaded)))
            (num_of_opt (marketCap loaded)) (debtToEquity (details loaded)))
  else None.

(** A quote body as the provider sends it: it has no [price] and no
    [changePercent]. *)
Definition providerQuote (current change volume_ : float) : QuoteData :=
  {| c := Some current; dp := Some change; v := Some volume_; price := None;
     changePercent := None |}.

(** A source of random numbers. *)
Definition halves (n : nat) : float := 0.5%float.

End StockPage.

(** * Properties *)

(** ** Request cache *)

Import APICache.

Lemma isRateLimited_rejects endpoint now c :
  (maxRequests <= length (List.filter (fun ts => (now - ts <? windowMs)%Z)
                            (default [] (requestLog c !! endpoint))))%nat ->
  isRateLimited endpoint now c = (true, c).
Proof.
  intros Hfull. unfold isRateLimited.
  apply Nat.leb_le in Hfull. by rewrite Hfull.
Qed.

Lemma isRateLimited_admits endpoint now c :
  let recent := List.filter (fun ts => (now - ts <? windowMs)%Z)
                  (default [] (requestLog c !! endpoint)) in
  (length recent < maxRequests)%nat ->
  isRateLimited endpoint now c =
    (false, {| cache := cache c;
               requestLog := <[endpoint := recent ++ [now]]> (requestLog c) |}).
Proof.
  intros recent Hroom. unfold isRateLimited. fold recent.
  apply Nat.leb_gt in Hroom. by rewrite Hroom.
Qed.

Lemma filter_all_expired now (logs : list Z) :
  Forall (fun ts => windowMs <= now - ts) logs ->
  List.filter (fun ts => (now - ts <? windowMs)%Z) logs = [].
Proof.
  induction 1 as [|ts logs Hts _ IH]; [done|].
  cbn. destruct (Z.ltb_spec (now - ts) windowMs); [lia | exact IH].
Qed.

Lemma get_requestLog key now c : requestLog (snd (get key now c)) = requestLog c.
Proof. unfold get. repeat case_match; done. Qed.

Lemma get_fst_cache key now c1 c2 :
  cache c1 = cache c2 -> fst (get key now c1) = fst (get key now c2).
Proof. intros Heq. unfold get. rewrite Heq. repeat case_match; done. Qed.

Lemma retryLoop_requestLog url maxRetries ttl net remaining :
  forall attempt lastError r,
    requestLog (api (snd (retryLoop url maxRetries ttl net remaining attempt lastError r)))
    = requestLog (api r).
Proof.
  induction remaining as [|remaining IH]; intros attempt lastError r; [done|].
  cbn [retryLoop]. destruct (net attempt) as [latency o].
  destruct (attemptBody o) as [message|v]; [|done].
  destruct (shortCircuits message); [done|].
  rewrite IH. by destruct (attempt <? maxRetries - 1)%nat.
Qed.

(** C8. After [set(k, v, ttl)] at time [stored], a [get(k)] at time [read]
    returns [v] and leaves the cache as it is while at most [ttl] has
    elapsed; once more than [ttl] has elapsed it returns [null] and the
    entry is deleted by that read. *)
Theorem cache_round_trip (k : string) (v : json) (ttl : option Z) (stored read : Z) (c : t) :
  let c' := set k v ttl stored c in
  (read - stored <= default defaultTtl ttl -> get k read c' = (v, c')) /\
  (read - stored > default defaultTtl ttl ->
   get k read c' = (JNull, {| cache := delete k (cache c); requestLog := requestLog c |})).
Proof.
  intros c'. unfold get, c', set. cbn. rewrite lookup_insert_eq. cbn. split; intros Hage.
  - destruct (Z.gtb_spec (read - stored) (default defaultTtl ttl)); [lia | done].
  - destruct (Z.gtb_spec (read - stored) (default defaultTtl ttl)); [|lia].
    by rewrite delete_insert_eq.
Qed.

(** The round trip on an entry stored at time 1000 with a ttl of 1000 ms,
    read at 1500 and at 2001. *)
Lemma cache_round_trip_witness :
  get "k" 1500 (set "k" (JStr "v") (Some 1000) 1000 empty)
    = (JStr "v", set "k" (JStr "v") (Some 1000) 1000 empty) /\
  get "k" 2001 (set "k" (JStr "v") (Some 1000) 1000 empty)
    = (JNull, {| cache := delete "k" (cache empty); requestLog := requestLog empty |}).
Proof.
  split.
  - apply (cache_round_trip "k" (JStr "v") (Some 1000) 1000 1500 empty). cbn. lia.
  - apply (cache_round_trip "k" (JStr "v") (Some 1000) 1000 2001 empty). cbn. lia.
Defined.

Lemma retryLoop_trace url maxRetries ttl net remaining :
  forall attempt lastError r,
    exists suffix,
      trace (snd (retryLoop url maxRetries ttl net remaining attempt lastError r))
      = trace r ++ suffix.
Proof.
  induction remaining as [|remaining IH]; intros attempt lastError r.
  { exists []. cbn. by rewrite app_nil_r. }
  cbn [retryLoop]. destruct (net attempt) as [latency o].
  destruct (attemptBody o) as [message|v]; [|by eexists].
  destruct (shortCircuits message); [by eexists|].
  edestruct IH as [suffix ->].
  destruct (attempt <? maxRetries - 1)%nat; cbn; rewrite <- !app_assoc; by eexists.
Qed.

Section RateLimiter.

Variable pathname : string -> option string.

Lemma fetchWithRetry_rejected url endpoint maxRetries ttl net now c :
  pathname url = Some endpoint ->
  (maxRequests <= length (List.filter (fun ts => (now - ts <? windowMs)%Z)
                            (default [] (requestLog c !! endpoint))))%nat ->
  fetchWithRetry pathname url maxRetries ttl net now c
  = (Throw rateLimitedMessage, {| api := c; clock := now; trace := [] |}).
Proof.
  intros Hurl Hfull. unfold fetchWithRetry.
  by rewrite Hurl, (isRateLimited_rejects _ _ _ Hfull).
Qed.

Lemma fetchWithRetry_admitted url endpoint maxRetries ttl net now c :
  pathname url = Some endpoint ->
  let recent := List.filter (fun ts => (now - ts <? windowMs)%Z)
                  (default [] (requestLog c !! endpoint)) in
  (length recent < maxRequests)%nat ->
  let out := fetchWithRetry pathname url maxRetries ttl net now c in
  hd_error (trace (snd out)) = Some (CacheRead url) /\
  requestLog (api (snd out)) = <[endpoint := recent ++ [now]]> (requestLog c).
Proof.
  intros Hurl recent Hroom out. subst out. unfold fetchWithRetry.
  rewrite Hurl, (isRateLimited_admits _ _ _ Hroom). fold recent.
  set (c1 := {| cache := cache c; requestLog := _ |}).
  pose proof (get_requestLog url now c1) as Hget.
  destruct (get url now c1) as [cached c2]. cbn in Hget.
  destruct (truthy cached); [by cbn|].
  set (r0 := {| api := c2; clock := now; trace := [CacheRead url] |}).
  pose proof (retryLoop_requestLog url maxRetries ttl net maxRetries 0%nat None r0) as Hlog.
  destruct (retryLoop_trace url maxRetries ttl net maxRetries 0%nat None r0) as [suffix Htrace].
  destruct (retryLoop url maxRetries ttl net maxRetries 0 None r0) as [[v|lastError] r];
    cbn in *; by rewrite Htrace, Hlog.
Qed.

Lemma filter_all_recent now (logs : list Z) :
  Forall (fun ts => now - ts < windowMs) logs ->
  List.filter (fun ts => (now - ts <? windowMs)%Z) logs = logs.
Proof.
  induction 1 as [|ts logs Hts _ IH]; [done|].
  cbn. destruct (Z.ltb_spec (now - ts) windowMs); [by rewrite IH | lia].
Qed.

(** Calls made at times that all lie in one span shorter than the window,
    while fewer than 30 are logged, are all admitted and logged in order. *)
Lemma apiAfterCalls_log url endpoint maxRetries ttl net (lo : Z) (times : list Z) :
  pathname url = Some endpoint ->
  forall (logs : list Z) (c : t),
    default [] (requestLog c !! endpoint) = logs ->
    Forall (fun ts => lo <= ts < lo + windowMs) (logs ++ times) ->
    (length (logs ++ times) <= maxRequests)%nat ->
    default [] (requestLog (apiAfterCalls pathname url maxRetries ttl net times c) !! endpoint)
    = logs ++ times.
Proof.
  intros Hurl. induction times as [|now times IH]; intros logs c Hlogs Hspan Hlen.
  { by rewrite app_nil_r. }
  unfold apiAfterCalls. cbn [fold_left]. fold (apiAfterCalls pathname url maxRetries ttl net).
  assert (logs ++ now :: times = (logs ++ [now]) ++ times) as Hsnoc
    by (by rewrite <- app_assoc).
  rewrite Hsnoc in Hspan, Hlen |- *.
  apply IH; [|done|done].
  apply Forall_app in Hspan as [Hspan _]. apply Forall_app in Hspan as [Hold Hnow].
  apply Forall_inv in Hnow.
  assert (List.filter (fun ts => (now - ts <? windowMs)%Z)
            (default [] (requestLog c !! endpoint)) = logs) as Hrecent.
  { rewrite Hlogs. apply filter_all_recent. eapply Forall_impl; [exact Hold|].
    cbn. intros ts Hts. lia. }
  destruct (fetchWithRetry_admitted url endpoint maxRetries ttl net now c Hurl) as [_ ->].
  { rewrite Hrecent. rewrite !length_app in Hlen. cbn in Hlen. lia. }
  by rewrite Hrecent, lookup_insert_eq.
Qed.

(** C6. With 30 timestamps of the endpoint inside the trailing 60 seconds,
    the next [fetchWithRetry] throws the rate-limit error with an empty
    trace (no cache read, no network call); when every recorded timestamp
    is at least 60 seconds old the call gets past the limiter: it reads the
    cache first and the window of the endpoint restarts at [now].  In
    particular, after 30 calls to a fresh endpoint inside one span of less
    than 60 seconds, a 31st call in that span is rejected. *)
Theorem rate_limit_window (url endpoint : string) (maxRetries : nat) (ttl : option Z)
    (net : nat -> Z * outcome) (now : Z) (c : t) :
  pathname url = Some endpoint ->
  let logs := default [] (requestLog c !! endpoint) in
  ((30 <= length (List.filter (fun ts => (now - ts <? 60000)%Z) logs))%nat ->
   fetchWithRetry pathname url maxRetries ttl net now c
   = (Throw "Rate limited. Please wait before making more requests.",
      {| api := c; clock := now; trace := [] |})) /\
  (Forall (fun ts => 60000 <= now - ts) logs ->
   let out := fetchWithRetry pathname url maxRetries ttl net now c in
   hd_error (trace (snd out)) = Some (CacheRead url) /\
   requestLog (api (snd out)) !! endpoint = Some [now]) /\
  (forall (times : list Z) (lo : Z),
     logs = [] -> length times = 30%nat ->
     Forall (fun ts => lo <= ts < lo + 60000) times -> lo <= now < lo + 60000 ->
     let c' := apiAfterCalls pathname url maxRetries ttl net times c in
     requestLog c' !! endpoint = Some times /\
     fetchWithRetry pathname url maxRetries ttl net now c'
     = (Throw "Rate limited. Please wait before making more requests.",
        {| api := c'; clock := now; trace := [] |})).
Proof.
  intros Hurl logs. split; [|split].
  - intros Hfull. by apply fetchWithRetry_rejected with endpoint.
  - intros Hold out.
    pose proof (filter_all_expired now logs Hold) as Hnone.
    destruct (fetchWithRetry_admitted url endpoint maxRetries ttl net now c Hurl) as [Hhd Hlog].
    { fold logs. rewrite Hnone. cbn. unfold maxRequests. lia. }
    split; [exact Hhd|].
    subst out. rewrite Hlog. fold logs. rewrite Hnone. apply lookup_insert_eq.
  - intros times lo Hfresh Hcount Hspan Hnow c'.
    pose proof (apiAfterCalls_log url endpoint maxRetries ttl net lo times Hurl [] c
                  Hfresh Hspan ltac:(cbn; unfold maxRequests; lia)) as Hlog.
    fold c' in Hlog. cbn [app] in Hlog.
    assert (requestLog c' !! endpoint = Some times) as Hsome.
    { destruct (requestLog c' !! endpoint) as [logged|]; cbn in Hlog; [by subst|].
      subst times. discriminate Hcount. }
    split; [exact Hsome|].
    apply fetchWithRetry_rejected with endpoint; [exact Hurl|].
    rewrite Hsome. cbn [default from_option id]. rewrite filter_all_recent.
    + unfold maxRequests. lia.
    + eapply Forall_impl; [exact Hspan|]. cbn. intros ts Hts. unfold windowMs. lia.
Qed.

(** An admitted call whose URL is cached with a truthy value returns it
    after the cache read, without any fetch. *)
Lemma fetchWithRetry_hit url endpoint maxRetries ttl net now c :
  pathname url = Some endpoint ->
  (length (List.filter (fun ts => (now - ts <? windowMs)%Z)
             (default [] (requestLog c !! endpoint))) < maxRequests)%nat ->
  truthy (fst (get url now c)) = true ->
  let out := fetchWithRetry pathname url maxRetries ttl net now c in
  fst out = Ok (fst (get url now c)) /\ trace (snd out) = [CacheRead url].
Proof.
  intros Hurl Hroom Hhit out. subst out. unfold fetchWithRetry.
  rewrite Hurl, (isRateLimited_admits _ _ _ Hroom).
  match goal with |- context [get url now ?x] => set (c1 := x) end.
  rewrite <- (get_fst_cache url now c1 c eq_refl) in Hhit |- *.
  destruct (get url now c1) as [cached c2]. cbn [fst] in Hhit |- *. by rewrite Hhit.
Qed.

(** C10. A call rejected by the limiter leaves the whole cache object, and
    so the window of the endpoint, as it was; an admitted call appends
    [now] to the pruned window whatever happens next, also when it is
    served from the cache without a fetch; hence any series of rejected
    calls leaves the object unchanged and the limiter answers afterwards as
    it would have without them. *)
Theorem rejected_call_records_nothing (url endpoint : string) (maxRetries : nat)
    (ttl : option Z) (net : nat -> Z * outcome) (now : Z) (c : t) :
  pathname url = Some endpoint ->
  let recentAt := fun now' =>
    List.filter (fun ts => (now' - ts <? 60000)%Z) (default [] (requestLog c !! endpoint)) in
  let out := fetchWithRetry pathname url maxRetries ttl net now c in
  ((30 <= length (recentAt now))%nat -> api (snd out) = c) /\
  ((length (recentAt now) < 30)%nat ->
   requestLog (api (snd out)) = <[endpoint := recentAt now ++ [now]]> (requestLog c)) /\
  ((length (recentAt now) < 30)%nat -> truthy (fst (get url now c)) = true ->
   fst out = Ok (fst (get url now c)) /\
   trace (snd out) = [CacheRead url] /\
   requestLog (api (snd out)) !! endpoint = Some (recentAt now ++ [now])) /\
  (forall times : list Z,
     Forall (fun now' => (30 <= length (recentAt now'))%nat) times ->
     apiAfterCalls pathname url maxRetries ttl net times c = c /\
     forall later,
       isRateLimited endpoint later (apiAfterCalls pathname url maxRetries ttl net times c)
       = isRateLimited endpoint later c).
Proof.
  intros Hurl recentAt out. subst out. split; [|split; [|split]].
  - intros Hfull.
    by rewrite (fetchWithRetry_rejected url endpoint maxRetries ttl net now c Hurl Hfull).
  - intros Hroom.
    by destruct (fetchWithRetry_admitted url endpoint maxRetries ttl net now c Hurl Hroom).
  - intros Hroom Hhit.
    destruct (fetchWithRetry_hit url endpoint maxRetries ttl net now c Hurl Hroom Hhit)
      as [Hres Htrace].
    destruct (fetchWithRetry_admitted url endpoint maxRetries ttl net now c Hurl Hroom)
      as [_ Hlog].
    split; [exact Hres|]. split; [exact Htrace|]. rewrite Hlog. apply lookup_insert_eq.
  - intros times Hall.
    assert (apiAfterCalls pathname url maxRetries ttl net times c = c) as Hsame.
    { unfold apiAfterCalls. induction Hall as [|now' times Hfull _ IH]; [done|].
      cbn [fold_left].
      by rewrite (fetchWithRetry_rejected url endpoint maxRetries ttl net now' c Hurl Hfull). }
    split; [exact Hsame|]. intros later. by rewrite Hsame.
Qed.

End RateLimiter.

(** *** Retry and backoff *)









Section Retry.

Variable pathname : string -> option string.

(** A call that is admitted by the limiter and misses the cache is the
    retry loop started on a trace holding the cache read. *)
Lemma fetchWithRetry_miss url endpoint maxRetries ttl net now c :
  pathname url = Some endpoint ->
  (length (List.filter (fun ts => (now - ts <? windowMs)%Z)
             (default [] (requestLog c !! endpoint))) < maxRequests)%nat ->
  truthy (fst (get url now c)) = false ->
  exists c2,
    fetchWithRetry pathname url maxRetries ttl net now c
    = match retryLoop url maxRetries ttl net maxRetries 0 None
              {| api := c2; clock := now; trace := [CacheRead url] |} with
      | (inl v, r) => (Ok v, r)
      | (inr lastError, r) => (Throw (default "All retry attempts failed" lastError), r)
      end.
Proof.
  intros Hurl Hroom Hmiss. unfold fetchWithRetry.
  rewrite Hurl, (isRateLimited_admits _ _ _ Hroom).
  match goal with |- context [get url now ?x] => set (c1 := x) end.
  rewrite <- (get_fst_cache url now c1 c eq_refl) in Hmiss.
  destruct (get url now c1) as [cached c2]. cbn [fst] in Hmiss. rewrite Hmiss.
  by exists c2.
Qed.



End Retry.

(** The window on the quote endpoint: full at time 2000, expired at 61000,
    and filled by a burst of 30 calls. *)
Lemma rate_limit_window_witness :
  fetchWithRetry quotePath quoteUrl 3 None flakyNet 2000 busyCache
  = (Throw "Rate limited. Please wait before making more requests.",
     {| api := busyCache; clock := 2000; trace := [] |}) /\
  (hd_error (trace (snd (fetchWithRetry quotePath quoteUrl 3 None flakyNet 61000 busyCache)))
   = Some (CacheRead quoteUrl) /\
   requestLog (api (snd (fetchWithRetry quotePath quoteUrl 3 None flakyNet 61000 busyCache)))
     !! "/api/v1/quote" = Some [61000]) /\
  (requestLog (apiAfterCalls quotePath quoteUrl 3 None flakyNet (replicate 30 1000) empty)
     !! "/api/v1/quote" = Some (replicate 30 1000) /\
   fetchWithRetry quotePath quoteUrl 3 None flakyNet 2000
     (apiAfterCalls quotePath quoteUrl 3 None flakyNet (replicate 30 1000) empty)
   = (Throw "Rate limited. Please wait before making more requests.",
      {| api := apiAfterCalls quotePath quoteUrl 3 None flakyNet (replicate 30 1000) empty;
         clock := 2000; trace := [] |})).
Proof.
  pose proof (rate_limit_window quotePath quoteUrl "/api/v1/quote" 3 None flakyNet 2000
                busyCache eq_refl) as (Hfull & _ & _).
  pose proof (rate_limit_window quotePath quoteUrl "/api/v1/quote" 3 None flakyNet 61000
                busyCache eq_refl) as (_ & Hexpired & _).
  pose proof (rate_limit_window quotePath quoteUrl "/api/v1/quote" 3 None flakyNet 2000
                empty eq_refl) as (_ & _ & Hburst).
  split; [|split].
  - apply Hfull. apply Nat.leb_le. vm_compute. reflexivity.
  - apply Hexpired. apply (bool_decide_unpack _). vm_compute. exact I.
  - apply (Hburst (replicate 30 1000) 1000); [reflexivity | reflexivity | | lia].
    apply (bool_decide_unpack _). vm_compute. exact I.
Defined.

(** Rejected, admitted and cache-served calls on the quote endpoint. *)
Lemma rejected_call_records_nothing_witness :
  api (snd (fetchWithRetry quotePath quoteUrl 3 None flakyNet 2000 busyCache)) = busyCache /\
  requestLog (api (snd (fetchWithRetry quotePath quoteUrl 3 None flakyNet 61000 busyCache)))
  = <[ "/api/v1/quote" := [61000] ]> (requestLog busyCache) /\
  (fst (fetchWithRetry quotePath quoteUrl 3 None flakyNet 2000 warmCache) = Ok quoteBody /\
   trace (snd (fetchWithRetry quotePath quoteUrl 3 None flakyNet 2000 warmCache))
   = [CacheRead quoteUrl] /\
   requestLog (api (snd (fetchWithRetry quotePath quoteUrl 3 None flakyNet 2000 warmCache)))
     !! "/api/v1/quote" = Some (replicate 29 1000 ++ [2000])) /\
  apiAfterCalls quotePath quoteUrl 3 None flakyNet [2000; 3000; 4000] busyCache = busyCache.
Proof.
  pose proof (rejected_call_records_nothing quotePath quoteUrl "/api/v1/quote" 3 None
                flakyNet 2000 busyCache eq_refl) as (Hrejected & _ & _ & Hseries).
  pose proof (rejected_call_records_nothing quotePath quoteUrl "/api/v1/quote" 3 None
                flakyNet 61000 busyCache eq_refl) as (_ & Hadmitted & _ & _).
  pose proof (rejected_call_records_nothing quotePath quoteUrl "/api/v1/quote" 3 None
                flakyNet 2000 warmCache eq_refl) as (_ & _ & Hcached & _).
  split; [|split; [|split]].
  - apply Hrejected. apply Nat.leb_le. vm_compute. reflexivity.
  - apply Hadmitted. apply Nat.ltb_lt. vm_compute. reflexivity.
  - apply Hcached; [apply Nat.ltb_lt|]; vm_compute; reflexivity.
  - apply Hseries. repeat constructor; apply Nat.leb_le; vm_compute; reflexivity.
Defined.



(** ** Sector classification *)

Lemma normalizeSector_firstMatch (s : string) :
  normalizeSector s = firstMatch sectorRules "Technology" (toLowerCase s).
Proof.
  unfold normalizeSector, sectorRules. cbn [firstMatch existsb].
  rewrite ?orb_false_r, ?orb_assoc. reflexivity.
Qed.

Lemma normalizeIndustry_firstMatch (s : string) :
  normalizeIndustry s = firstMatch industryRules "Software" (toLowerCase s).
Proof.
  unfold normalizeIndustry, industryRules. cbn [firstMatch existsb].
  rewrite ?orb_false_r, ?orb_assoc. reflexivity.
Qed.

(** [includes] is the substring test. *)
Lemma prefix_split (p s : string) :
  String.prefix p s = true <-> exists post, s = p +:+ post.
Proof.
  revert s. induction p as [|c p IH]; intros s.
  { split; [intros _; exists s; reflexivity|intros _; by destruct s]. }
  destruct s as [|d s].
  { split; [done|]. intros [post Hpost]. discriminate Hpost. }
  change (String.prefix (String c p) (String d s))
    with (if ascii_dec c d then String.prefix p s else false).
  destruct (ascii_dec c d) as [->|Hne].
  - rewrite IH. split; intros [post Hpost]; exists post.
    + change (String d p +:+ post) with (String d (p +:+ post)). by rewrite <- Hpost.
    + change (String d p +:+ post) with (String d (p +:+ post)) in Hpost. congruence.
  - split; [done|]. intros [post Hpost].
    change (String c p +:+ post) with (String c (p +:+ post)) in Hpost. congruence.
Qed.

Lemma includes_split (s needle : string) :
  includes s needle = true <-> exists pre post, s = pre +:+ needle +:+ post.
Proof.
  induction s as [|c s IH].
  - change (includes "" needle) with (String.prefix needle "" || false).
    rewrite orb_false_r, prefix_split. split.
    + intros [post Hpost]. by exists "", post.
    + intros ([|d pre] & post & Hs); [by exists post|discriminate Hs].
  - change (includes (String c s) needle)
      with (String.prefix needle (String c s) || includes s needle).
    rewrite orb_true_iff, prefix_split, IH. split.
    + intros [[post Hpost]|(pre & post & ->)]; [by exists "", post|].
      by exists (String c pre), post.
    + intros ([|d pre] & post & Hs); [left; by exists post|].
      right. change (String d pre +:+ needle +:+ post)
        with (String d (pre +:+ needle +:+ post)) in Hs.
      injection Hs as _ ->. by exists pre, post.
Qed.

(** [toLowerCase] maps the letters A-Z to a-z, place by place, and leaves
    every other character. *)
Lemma toLowerCase_places (s : string) :
  String.length (toLowerCase s) = String.length s /\
  forall i c, String.get i s = Some c ->
    String.get i (toLowerCase s)
    = Some (if ((65 <=? N_of_ascii c) && (N_of_ascii c <=? 90))%N
            then ascii_of_N (N_of_ascii c + 32) else c).
Proof.
  induction s as [|d s [IHlen IHget]]; [by split|]. cbn [toLowerCase String.length].
  split; [by rewrite IHlen|]. intros [|i] c; cbn [String.get].
  - by intros [= ->].
  - apply IHget.
Qed.

(** The first rule with a keyword in the text gives the label; without any,
    the fallback is the answer. *)
Lemma firstMatch_first (before after : list (list string * string))
    (keywords : list string) (label fallback text : string) :
  Forall (fun rule => existsb (includes text) (fst rule) = false) before ->
  existsb (includes text) keywords = true ->
  firstMatch (before ++ (keywords, label) :: after) fallback text = label.
Proof.
  intros Hbefore Hhere. induction Hbefore as [|[ks l] before Hks _ IH]; cbn [app firstMatch].
  - by rewrite Hhere.
  - cbn [fst] in Hks. by rewrite Hks.
Qed.

Lemma firstMatch_none (rules : list (list string * string)) (fallback text : string) :
  Forall (fun rule => existsb (includes text) (fst rule) = false) rules ->
  firstMatch rules fallback text = fallback.
Proof.
  induction 1 as [|[ks l] rules Hks _ IH]; cbn [firstMatch]; [done|].
  cbn [fst] in Hks. by rewrite Hks.
Qed.

(** C9. Normalisation goes by ordered, case-insensitive substring rules.
    [includes] holds exactly of the texts that contain the needle, and
    [toLowerCase] turns A-Z into a-z place by place.  For each normaliser,
    the label of a rule is the answer when one of its keywords occurs in
    the lower-cased text and no keyword of an earlier rule does, and the
    fallback (Technology, Software) is the answer when no keyword occurs.
    So "Information Technology" and the empty text give Technology,
    "HEALTH CARE" gives Healthcare, "Insurance, Medical" gives Healthcare
    (the health rule comes before the financial one) and "SEMICONDUCTORS"
    gives Semiconductors.  When the normalised labels of a profile are the
    two fallbacks, the holding of TSLA is stored as Automotive / Electric
    Vehicles. *)
Theorem sector_normalisation :
  (forall s needle,
     includes s needle = true <-> exists pre post, s = pre +:+ needle +:+ post) /\
  (forall s,
     String.length (toLowerCase s) = String.length s /\
     forall i c, String.get i s = Some c ->
       String.get i (toLowerCase s)
       = Some (if ((65 <=? N_of_ascii c) && (N_of_ascii c <=? 90))%N
               then ascii_of_N (N_of_ascii c + 32) else c)) /\
  (forall s before keywords label after,
     let occursIn := fun rule : list string * string =>
       existsb (includes (toLowerCase s)) (fst rule) in
     Forall (fun rule => occursIn rule = false) before ->
     occursIn (keywords, label) = true ->
     (sectorRules = before ++ (keywords, label) :: after -> normalizeSector s = label) /\
     (industryRules = before ++ (keywords, label) :: after -> normalizeIndustry s = label)) /\
  (forall s,
     let occursIn := fun rule : list string * string =>
       existsb (includes (toLowerCase s)) (fst rule) in
     (Forall (fun rule => occursIn rule = false) sectorRules ->
      normalizeSector s = "Technology") /\
     (Forall (fun rule => occursIn rule = false) industryRules ->
      normalizeIndustry s = "Software")) /\
  normalizeSector "Information Technology" = "Technology" /\
  normalizeSector "" = "Technology" /\
  normalizeSector "HEALTH CARE" = "Healthcare" /\
  normalizeSector "Insurance, Medical" = "Healthcare" /\
  normalizeIndustry "SEMICONDUCTORS" = "Semiconductors" /\
  (forall profileData,
     normalizedLabels profileData = ("Technology", "Software") ->
     classify "TSLA" profileData = (Some "Automotive", Some "Electric Vehicles")).
Proof.
  split; [exact includes_split|]. split; [exact toLowerCase_places|].
  split; [|split].
  - intros s before keywords label after occursIn Hbefore Hhere. split; intros Hrules.
    + rewrite normalizeSector_firstMatch, Hrules. by apply firstMatch_first.
    + rewrite normalizeIndustry_firstMatch, Hrules. by apply firstMatch_first.
  - intros s occursIn. split; intros Hnone.
    + rewrite normalizeSector_firstMatch. by apply firstMatch_none.
    + rewrite normalizeIndustry_firstMatch. by apply firstMatch_none.
  - do 5 (split; [by vm_compute|]).
    intros profileData Hlabels. unfold classify. by rewrite Hlabels.
Qed.

(** The financial rule applied to a text in capitals that no earlier rule
    matches; a text without any keyword; TSLA with an unusable and with a
    missing profile. *)
Lemma sector_normalisation_witness :
  normalizeSector "First BANK of Ohio" = "Financial Services" /\
  normalizeIndustry "Wireless Carriers" = "Telecommunications" /\
  (normalizeSector "Conglomerate" = "Technology" /\
   normalizeIndustry "Conglomerate" = "Software") /\
  classify "TSLA" (Some blankProfile) = (Some "Automotive", Some "Electric Vehicles") /\
  classify "TSLA" None = (Some "Automotive", Some "Electric Vehicles").
Proof.
  destruct sector_normalisation as (_ & _ & Hfirst & Hnone & _ & _ & _ & _ & _ & Htsla).
  split; [|split; [|split; [|split]]].
  - apply (Hfirst "First BANK of Ohio" (firstn 2 sectorRules)
             ["financial"; "bank"; "insurance"; "finance"] "Financial Services"
             (skipn 3 sectorRules)).
    + apply (bool_decide_unpack _). vm_compute. exact I.
    + vm_compute. reflexivity.
    + reflexivity.
  - apply (Hfirst "Wireless Carriers" (firstn 9 industryRules)
             ["telecom"; "wireless"; "communication"] "Telecommunications" []).
    + apply (bool_decide_unpack _). vm_compute. exact I.
    + vm_compute. reflexivity.
    + reflexivity.
  - split; apply (Hnone "Conglomerate"); apply (bool_decide_unpack _); vm_compute; exact I.
  - apply (Htsla (Some blankProfile)). vm_compute. reflexivity.
  - apply (Htsla None). reflexivity.
Defined.

(** ** Risk rubric *)

(** Every score of the rubric lies between 0 and 11. *)
Lemma getRiskLevel_score_range (beta pe cap : float) (debt : option float) :
  (0 <=? score (getRiskLevel beta pe cap debt))%float = true /\
  (score (getRiskLevel beta pe cap debt) <=? 11)%float = true.
Proof.
  unfold getRiskLevel.
  destruct (1.5 <? beta)%float; [|destruct (1.2 <? beta)%float; [|destruct (1 <? beta)%float]];
    (destruct (30 <? pe)%float; [|destruct (20 <? pe)%float; [|destruct (15 <? pe)%float]]);
    (destruct (cap <? 2)%float; [|destruct (cap <? 10)%float; [|destruct (cap <? 50)%float]]);
    (destruct (truthy_opt debt);
     [destruct (1 <? num_of_opt debt)%float; [|destruct (0.5 <? num_of_opt debt)%float]|]);
    vm_compute; split; reflexivity.
Qed.

(** C2. At beta 2.0, P/E 35, market cap 1 (billion) and debt-to-equity 1.2
    every factor of the rubric scores its maximum and the score returned
    is 3 + 3 + 3 + 2 = 11, above 10; the level is High Risk. *)
Theorem risk_score_reaches_eleven :
  score (getRiskLevel 2 35 1 (Some 1.2%float)) = 11%float /\
  (10 <? score (getRiskLevel 2 35 1 (Some 1.2%float)))%float = true /\
  level (getRiskLevel 2 35 1 (Some 1.2%float)) = "High Risk".
Proof. vm_compute. repeat split; reflexivity. Qed.

(** ** Recommendation *)

(** C3, as stated, fails: for a stock that fell by 6% the momentum rule
    [changePercent < -5] triggers (the only one, taking shortTerm from 5 to
    3) and no reason is returned; for a stock with a 2% dividend yield the
    dividend rule triggers (the only one, the dividend score is 4) and no
    reason is returned. *)
Lemma triggered_rules_without_reason :
  (length (List.filter fst (adjustmentRules fallingStock)) = 1%nat /\
   shortTerm (generateInvestmentRecommendation fallingStock) = 3%float /\
   reasons (generateInvestmentRecommendation fallingStock) = []) /\
  (length (List.filter fst (adjustmentRules modestDividend)) = 1%nat /\
   dividendScore (generateInvestmentRecommendation modestDividend) = 4%float /\
   reasons (generateInvestmentRecommendation modestDividend) = []).
Proof. vm_compute. repeat split; reflexivity. Qed.

(** A rule contributes its reason when it triggers and has one. *)
Lemma collected_cons (c : bool) (reason : option string) (rest : list (bool * option string)) :
  collectedReasons ((c, reason) :: rest)
  = (if c then match reason with Some r => [r] | None => [] end else []) ++ collectedReasons rest.
Proof. by destruct c, reason. Qed.

(** A conditional update of a score and of the reasons, seen on each
    component. *)
Lemma let_pair_if {A B C : Type} (c : bool) (a1 a2 : A) (b1 b2 : B) (K : A -> B -> C) :
  (let '(a, b) := if c then (a1, b1) else (a2, b2) in K a b)
  = K (if c then a1 else a2) (if c then b1 else b2).
Proof. by destruct c. Qed.

Lemma if_snoc {A : Type} (c : bool) (l : list A) (x : A) :
  (if c then l ++ [x] else l) = l ++ (if c then [x] else []).
Proof. destruct c; [done|]. by rewrite app_nil_r. Qed.

(** C3, amended.  The reasons returned are the first five, in rule order,
    of the reasons of the adjustments that are applied, where the
    adjustment for [changePercent < -5] has no reason and the dividend
    adjustment has one only for a yield above 3.  The rules of the table
    are the adjustments that the code applies: the long-term score is 5
    plus one point for each of the first five rules that triggers, the
    short-term score is 5 plus 2, -2, 1 and 1 points for the next four,
    and the dividend score is the clamped yield times two under the last
    rule and 0 without it. *)
Theorem reasons_are_first_five_collected (d : StockDetails) :
  let rules := adjustmentRules d in
  let applied := map fst rules in
  let recommendation := generateInvestmentRecommendation d in
  reasons recommendation = firstn 5 (collectedReasons rules) /\
  longTerm recommendation = scoreAfter 5 (combine (firstn 5 applied) [1; 1; 1; 1; 1]%float) /\
  shortTerm recommendation
  = scoreAfter 5 (combine (firstn 4 (skipn 5 applied)) [2; -2; 1; 1]%float) /\
  dividendScore recommendation
  = if nth 9 applied false
    then Math_max 0 (Math_min 10 (Math_min 10 (num_of_opt (dividend d) * 2)))
    else 0%float.
Proof.
  intros rules applied recommendation. subst rules applied recommendation.
  unfold generateInvestmentRecommendation, adjustmentRules.
  rewrite !collected_cons. cbn [collectedReasons]. rewrite app_nil_r.
  cbv zeta. repeat (rewrite let_pair_if, ?if_snoc).
  cbn [reasons longTerm shortTerm dividendScore map fst firstn skipn combine nth scoreAfter
       fold_left].
  split; [|split; [|split]].
  - f_equal.
    destruct (truthy_opt (dividend d)), (3 <? num_of_opt (dividend d))%float,
      (present_below (changePercent d) (-5));
      cbn [app]; rewrite ?app_nil_r, <- ?app_assoc; reflexivity.
  - destruct (present_below (peRatio d) 15), (present_above (roe d) 15),
      (present_below (debtToEquity d) 0.5), (present_above (currentRatio d) 1.5),
      (present_above (grossMargin d) 30); by vm_compute.
  - destruct (present_above (changePercent d) 5), (present_below (changePercent d) (-5)),
      (isBullish d), (highVolume d); by vm_compute.
  - destruct (truthy_opt (dividend d)); [done|by vm_compute].
Qed.

Example reasons_capped_at_five :
  reasons (generateInvestmentRecommendation strongStock)
  = ["Attractive valuation"; "Strong profitability"; "Strong balance sheet";
     "Good liquidity"; "High margins"] /\
  collectedReasons (adjustmentRules strongStock)
  = ["Attractive valuation"; "Strong profitability"; "Strong balance sheet";
     "Good liquidity"; "High margins"; "Strong momentum"; "High trading volume";
     "Good dividend yield"].
Proof. vm_compute. split; reflexivity. Qed.

(** ** Holdings loop *)

(** What the loop does with an entry that has shares: a rejected fetch
    keeps the holding at its purchase price, a quote with a price values
    it, and a parsed quote without a price appends nothing. *)
Lemma processItem_entry (today : float) (fetchSymbol : string -> Fetched)
    (s : string) (sh ap : option float) (pd : StoredDate) :
  (num_or sh 0 =? 0)%float = false ->
  match fetchSymbol s with
  | Rejected =>
      exists h, processItem today fetchSymbol (Entry s sh ap pd) = ([h], []) /\
        symbol h = s /\ shares h = num_or sh 0 /\ avgPrice h = num_or ap 0 /\
        currentPrice h = avgPrice h /\ gainLoss h = 0%float /\ gainLossPercent h = 0%float
  | Bodies stockData profileData =>
      match quotedPrice stockData with
      | Some price =>
          exists h, processItem today fetchSymbol (Entry s sh ap pd) = ([h], []) /\
            symbol h = s /\ shares h = num_or sh 0 /\ currentPrice h = price
      | None => processItem today fetchSymbol (Entry s sh ap pd) = ([], [])
      end
  end.
Proof.
  intros Hshares. unfold processItem. rewrite Hshares.
  destruct (fetchSymbol s) as [|stockData profileData].
  - eexists. split; [reflexivity|]. by cbn.
  - destruct (quotedPrice stockData) as [price|]; [|done].
    destruct (classify s profileData) as [sector_ industry_].
    eexists. split; [reflexivity|]. by cbn.
Qed.

(** C1.  A position of ten shares bought at 5 is missing from the result
    when the quote request is answered with a body whose price is zero or
    absent: no holding is produced and the portfolio is set to [null].
    When the request is rejected instead, the same position is reported
    at its purchase price. *)
Theorem priceless_quote_drops_holding (pow : float -> float -> float) (today : float) :
  summarize pow today zeroPriceFetch onePosition = (None, []) /\
  summarize pow today errorBodyFetch onePosition = (None, []) /\
  holdings <$> fst (summarize pow today failingFetch onePosition)
  = Some [ {| symbol := "ZZZZ"; companyName := "ZZZZ"; shares := 10; avgPrice := 5;
              currentPrice := 5; totalValue := 50; gainLoss := 0; gainLossPercent := 0;
              holdingIndustry := Some "Software"; holdingSector := Some "Technology";
              purchaseDate := today |} ].
Proof. vm_compute. repeat split; reflexivity. Qed.

(** ** Binary64 facts *)

Lemma SFcompare_refl_finite s m e :
  SFcompare (S754_finite s m e) (S754_finite s m e) = Some Eq.
Proof.
  cbn. rewrite Z.compare_refl, Pos.compare_cont_refl. by destruct s.
Qed.

Lemma is_nan_spec x : is_nan x = true <-> Prim2SF x = S754_nan.
Proof.
  unfold is_nan. rewrite FloatAxioms.eqb_spec. unfold SFeqb.
  destruct (Prim2SF x) as [s|s| |s m e] eqn:Hx.
  - destruct s; cbn; split; discriminate.
  - destruct s; cbn; split; discriminate.
  - cbn. split; reflexivity.
  - rewrite SFcompare_refl_finite. cbn. split; discriminate.
Qed.

Lemma is_nan_false_spec x : is_nan x = false <-> Prim2SF x <> S754_nan.
Proof.
  rewrite <- is_nan_spec. destruct (is_nan x); split; congruence.
Qed.









Lemma iter_pos_invariant {A : Type} (P : A -> Prop) (f : A -> A) :
  (forall x, P x -> P (f x)) -> forall n x, P x -> P (SpecFloat.iter_pos f n x).
Proof.
  intros Hf. induction n as [n IH|n IH|]; intros x Hx; cbn; auto.
Qed.

Lemma shr_1_bounds (bound : Z) (mrs : shr_record) :
  0 <= shr_m mrs <= bound -> 0 <= shr_m (shr_1 mrs) <= bound.
Proof.
  destruct mrs as [m r s]. cbn [shr_m shr_1].
  destruct m as [|[p|p|]|[p|p|]]; cbn [shr_m]; lia.
Qed.

(** Shifting right keeps the mantissa between 0 and what it was, and
    raises the exponent by the positive part of the shift. *)
Lemma shr_bounds (mrs : shr_record) (e n : Z) :
  0 <= shr_m mrs ->
  0 <= shr_m (fst (shr mrs e n)) <= shr_m mrs /\ snd (shr mrs e n) = e + Z.max 0 n.
Proof.
  intros Hm. unfold shr. destruct n as [|p|p]; cbn [fst snd]; try (split; lia).
  split; [|lia].
  apply (iter_pos_invariant (fun x => 0 <= shr_m x <= shr_m mrs)); [|lia].
  intros x. apply shr_1_bounds.
Qed.

Lemma shr_m_of_loc m l : shr_m (shr_record_of_loc m l) = m.
Proof. by destruct l as [|[]]. Qed.

Lemma round_nearest_even_bounds m l :
  0 <= m -> m <= round_nearest_even m l <= m + 1.
Proof. intros Hm. destruct l as [|[]]; cbn; try lia. destruct (Z.even m); lia. Qed.





(** ** The XIRR solver *)

Lemma filter_none {A : Type} (f : A -> bool) (l : list A) :
  Forall (fun x => f x = false) l -> List.filter f l = [].
Proof. induction 1 as [|x l Hx _ IH]; [done|]. cbn. by rewrite Hx. Qed.

Section XIRR.

Variable pow : float -> float -> float.

(** The special cases of exponentiation fixed by the language: a zero
    exponent gives 1 whatever the base, and a NaN base gives NaN for every
    other exponent. *)
Hypothesis pow_zero_exponent : forall b e, is_zero e = true -> pow b e = 1%float.
Hypothesis pow_nan_base :
  forall b e, is_nan b = true -> is_zero e = false -> is_nan (pow b e) = true.







End XIRR.




Example xirr_one_year :
  calculateXIRR examplePow [-1000; 1100]%float [0; oneYearMs]%float = Some 10%float.
Proof. vm_compute. reflexivity. Qed.

(** * Further properties *)

(** ** Request cache: bounds, writes and independence *)

(** Fetches and delays of a series of attempts. *)
Lemma attemptsTrace_counts (url : string) (j : nat) :
  forall attempt,
    fetches (attemptsTrace url attempt j) = j /\
    sleeps (attemptsTrace url attempt j) = map backoff (seq attempt (j - 1)).
Proof.
  induction j as [|[|j] IH]; intros attempt; [done|done|].
  destruct (IH (S attempt)) as [Hfetch Hsleep].
  change (attemptsTrace url attempt (S (S j)))
    with (Fetch url :: Sleep (backoff attempt) :: attemptsTrace url (S attempt) (S j)).
  change (fetches (Fetch url :: Sleep (backoff attempt) :: ?l)) with (S (fetches l)).
  change (sleeps (Fetch url :: Sleep (backoff attempt) :: ?l))
    with (backoff attempt :: sleeps l).
  rewrite Hfetch, Hsleep. cbn [Nat.sub seq map]. by rewrite Nat.sub_0_r.
Qed.

(** The loop appends a series of attempts to the trace: at least one when
    it runs at all. *)
Lemma retryLoop_shape url maxRetries ttl net remaining :
  forall attempt lastError r,
    (attempt + remaining = maxRetries)%nat ->
    exists j : nat,
      (j <= remaining)%nat /\ (remaining = 0%nat \/ 1 <= j)%nat /\
      trace (snd (retryLoop url maxRetries ttl net remaining attempt lastError r))
      = trace r ++ attemptsTrace url attempt j.
Proof.
  induction remaining as [|remaining IH]; intros attempt lastError r Hsum.
  { exists 0%nat. cbn. rewrite app_nil_r. repeat split; lia. }
  cbn [retryLoop]. destruct (net attempt) as [latency o].
  destruct (attemptBody o) as [message|v].
  2:{ exists 1%nat. cbn [snd trace attemptsTrace]. repeat split; lia. }
  destruct (shortCircuits message).
  { exists 1%nat. cbn [snd trace attemptsTrace]. repeat split; lia. }
  match goal with |- context [retryLoop _ _ _ _ _ _ _ ?r2] => set (next := r2) end.
  destruct (IH (S attempt) (Some message) next ltac:(lia)) as (j & Hj & Hpos & Htrace).
  rewrite Htrace. subst next.
  destruct remaining as [|remaining].
  - replace (attempt <? maxRetries - 1)%nat with false
      by (symmetry; apply Nat.ltb_ge; lia).
    assert (j = 0%nat) as -> by lia. exists 1%nat.
    cbn [trace attemptsTrace]. rewrite app_nil_r. repeat split; lia.
  - replace (attempt <? maxRetries - 1)%nat with true
      by (symmetry; apply Nat.ltb_lt; lia).
    destruct Hpos as [|Hpos]; [lia|]. destruct j as [|j]; [lia|]. exists (S (S j)).
    cbn [trace]. rewrite <- !app_assoc. repeat split; lia.
Qed.

Section CacheEffects.

Variable pathname : string -> option string.

(** X1. Whatever the network does, a call has no effect at all (the
    limiter or the URL rejected it), or its effects are the cache read
    followed by at most [maxRetries] fetches with one delay between each
    two consecutive fetches and nowhere else: the backoff 1000, 2000,
    4000, ... of the earlier attempt. *)
Theorem fetchWithRetry_effort (url : string) (maxRetries : nat) (ttl : option Z)
    (net : nat -> Z * outcome) (now : Z) (c : t) :
  let out := fetchWithRetry pathname url maxRetries ttl net now c in
  exists j : nat,
    (j <= maxRetries)%nat /\
    (trace (snd out) = [] /\ j = 0%nat \/
     trace (snd out) = CacheRead url :: attemptsTrace url 0 j) /\
    fetches (trace (snd out)) = j /\
    sleeps (trace (snd out)) = map (fun attempt => 2 ^ Z.of_nat attempt * 1000) (seq 0 (j - 1)).
Proof.
  intros out. subst out. unfold fetchWithRetry.
  destruct (pathname url) as [endpoint|];
    [|exists 0%nat; cbn; split; [lia|]; split; [by left|done]].
  destruct (isRateLimited endpoint now c) as [[] c1];
    [exists 0%nat; cbn; split; [lia|]; split; [by left|done]|].
  destruct (get url now c1) as [cached c2].
  destruct (truthy cached); [exists 0%nat; cbn; split; [lia|]; split; [by right|done]|].
  destruct (retryLoop_shape url maxRetries ttl net maxRetries 0%nat None
              {| api := c2; clock := now; trace := [CacheRead url] |} eq_refl)
    as (j & Hj & _ & Htrace).
  destruct (attemptsTrace_counts url j 0%nat) as [Hfetch Hsleep].
  exists j. cbn [trace app] in Htrace.
  destruct (retryLoop _ _ _ _ _ _ _ _) as [[v|lastError] r];
    cbn [fst snd] in *; rewrite Htrace; (split; [done|]); (split; [by right|]);
    change (fetches (CacheRead url :: ?l)) with (fetches l);
    change (sleeps (CacheRead url :: ?l)) with (sleeps l); by rewrite Hfetch, Hsleep.
Qed.

(** What the loop leaves in the cache: the value it returns, stored at the
    time the loop ends, or nothing new when it leaves with an error. *)
Lemma retryLoop_cache url maxRetries ttl net remaining :
  forall attempt lastError r,
    let out := retryLoop url maxRetries ttl net remaining attempt lastError r in
    match fst out with
    | inl v =>
        cache (api (snd out))
        = <[url := {| data := v; timestamp := clock (snd out);
                      ttl := default defaultTtl ttl |}]> (cache (api r))
    | inr _ => cache (api (snd out)) = cache (api r)
    end.
Proof.
  induction remaining as [|remaining IH]; intros attempt lastError r; [done|].
  cbn [retryLoop]. destruct (net attempt) as [latency o].
  destruct (attemptBody o) as [message|v]; [|done].
  destruct (shortCircuits message); [done|].
  match goal with |- context [retryLoop _ _ _ _ _ _ _ ?r2] => set (next := r2) end.
  specialize (IH (S attempt) (Some message) next). cbn zeta in IH |- *.
  destruct (fst (retryLoop _ _ _ _ _ _ _ next)); rewrite IH; subst next;
    by destruct (attempt <? maxRetries - 1)%nat.
Qed.

Lemma isRateLimited_keeps_cache endpoint now c :
  cache (snd (isRateLimited endpoint now c)) = cache c.
Proof. unfold isRateLimited. by case_match. Qed.

Lemma get_cache key now c :
  cache (snd (get key now c)) = cache c \/
  (fst (get key now c) = JNull /\ cache (snd (get key now c)) = delete key (cache c)).
Proof. unfold get. repeat case_match; cbn; auto. Qed.

(** X2. With [maxRetries = 0] an admitted call that misses the cache makes
    no fetch at all and throws the generic error. *)
Theorem zero_retries_never_fetch (url endpoint : string) (ttl : option Z)
    (net : nat -> Z * outcome) (now : Z) (c : t) :
  pathname url = Some endpoint ->
  (length (List.filter (fun ts => (now - ts <? 60000)%Z)
             (default [] (requestLog c !! endpoint))) < 30)%nat ->
  truthy (fst (get url now c)) = false ->
  let out := fetchWithRetry pathname url 0 ttl net now c in
  fst out = Throw "All retry attempts failed" /\ trace (snd out) = [CacheRead url].
Proof.
  intros Hurl Hroom Hmiss out. subst out.
  by destruct (fetchWithRetry_miss pathname url endpoint 0 ttl net now c Hurl Hroom Hmiss)
    as [c2 ->].
Qed.

(** X3. A value obtained from the network is stored under the full URL
    with the time at which the call ended and the given ttl (300000 ms
    when omitted); if the value is truthy, every later admitted call for
    that URL made while at most ttl has elapsed returns it after the cache
    read alone, whatever the network would answer. *)
Theorem fetched_value_is_cached (url endpoint : string) (maxRetries : nat) (ttl : option Z)
    (net : nat -> Z * outcome) (now : Z) (c : t) (v : json) :
  pathname url = Some endpoint ->
  let out := fetchWithRetry pathname url maxRetries ttl net now c in
  fst out = Ok v -> (1 <= fetches (trace (snd out)))%nat ->
  cache (api (snd out)) !! url
  = Some {| data := v; timestamp := clock (snd out); ttl := default defaultTtl ttl |} /\
  (truthy v = true ->
   forall (maxRetries' : nat) (ttl' : option Z) (net' : nat -> Z * outcome) (now' : Z),
     now' - clock (snd out) <= default defaultTtl ttl ->
     (length (List.filter (fun ts => (now' - ts <? 60000)%Z)
                (default [] (requestLog (api (snd out)) !! endpoint))) < 30)%nat ->
     let out' := fetchWithRetry pathname url maxRetries' ttl' net' now' (api (snd out)) in
     fst out' = Ok v /\ trace (snd out') = [CacheRead url]).
Proof.
  intros Hurl out Hok Hnet.
  assert (cache (api (snd out)) !! url
          = Some {| data := v; timestamp := clock (snd out);
                    ttl := default defaultTtl ttl |}) as Hstored.
  { subst out. unfold fetchWithRetry in *. rewrite Hurl in *.
    destruct (isRateLimited endpoint now c) as [[] c1]; [done|].
    destruct (get url now c1) as [cached c2].
    destruct (truthy cached); [cbn in Hnet; lia|].
    pose proof (retryLoop_cache url maxRetries ttl net maxRetries 0%nat None
                  {| api := c2; clock := now; trace := [CacheRead url] |}) as Hcache.
    cbn zeta in Hcache.
    destruct (retryLoop _ _ _ _ _ _ _ _) as [[w|lastError] r]; cbn [fst snd] in *; [|done].
    injection Hok as ->. rewrite Hcache. apply lookup_insert_eq. }
  split; [exact Hstored|].
  intros Htruthy maxRetries' ttl' net' now' Hfresh Hroom out'.
  assert (fst (get url now' (api (snd out))) = v) as Hget.
  { unfold get. rewrite Hstored. cbn [timestamp APICache.ttl data].
    by destruct (Z.gtb_spec (now' - clock (snd out)) (default defaultTtl ttl)); [lia|]. }
  rewrite <- Hget in Htruthy.
  pose proof (fetchWithRetry_hit pathname url endpoint maxRetries' ttl' net' now'
                (api (snd out)) Hurl Hroom Htruthy) as Hhit.
  cbn zeta in Hhit. by rewrite Hget in Hhit.
Qed.


(** X4. A fresh cache entry whose value is falsy ([null], [false], [0],
    [NaN] or the empty string) is not served: the admitted call reads the
    cache and then fetches. *)
Theorem falsy_entry_is_refetched (url endpoint : string) (maxRetries : nat) (ttl : option Z)
    (net : nat -> Z * outcome) (now : Z) (c : t) (item : CacheItem) :
  pathname url = Some endpoint ->
  (length (List.filter (fun ts => (now - ts <? 60000)%Z)
             (default [] (requestLog c !! endpoint))) < 30)%nat ->
  cache c !! url = Some item -> now - timestamp item <= APICache.ttl item ->
  truthy (data item) = false -> (1 <= maxRetries)%nat ->
  exists rest,
    trace (snd (fetchWithRetry pathname url maxRetries ttl net now c))
    = CacheRead url :: Fetch url :: rest.
Proof.
  intros Hurl Hroom Hitem Hfresh Hfalsy Hmax.
  assert (truthy (fst (get url now c)) = false) as Hmiss.
  { unfold get. rewrite Hitem.
    by destruct (Z.gtb_spec (now - timestamp item) (APICache.ttl item)); [lia|]. }
  destruct (fetchWithRetry_miss pathname url endpoint maxRetries ttl net now c Hurl Hroom Hmiss)
    as [c2 ->].
  destruct maxRetries as [|m]; [lia|]. cbn [retryLoop].
  destruct (net 0%nat) as [latency o].
  destruct (attemptBody o) as [message|v]; [|by eexists].
  destruct (shortCircuits message); [by eexists|].
  match goal with |- context [retryLoop _ _ _ _ _ _ _ ?r2] => set (next := r2) end.
  destruct (retryLoop_trace url (S m) ttl net m 1%nat (Some message) next) as [suffix Htrace].
  destruct (retryLoop url (S m) ttl net m 1 (Some message) next) as [[v|lastError] r];
    cbn [fst snd] in *; rewrite Htrace; subst next;
    destruct (0 <? S m - 1)%nat; cbn [trace app]; rewrite <- ?app_assoc; cbn [app]; by eexists.
Qed.

(** X5. A call that throws stores nothing: the cache is what it was, or
    what it was without the expired entry of the URL that the cache read
    evicted. *)
Theorem failed_call_stores_nothing (url : string) (maxRetries : nat) (ttl : option Z)
    (net : nat -> Z * outcome) (now : Z) (c : t) (message : string) :
  let out := fetchWithRetry pathname url maxRetries ttl net now c in
  fst out = Throw message ->
  cache (api (snd out)) = cache c \/ cache (api (snd out)) = delete url (cache c).
Proof.
  intros out Hthrow. subst out. unfold fetchWithRetry in *.
  destruct (pathname url) as [endpoint|]; [|by left].
  assert (cache (snd (isRateLimited endpoint now c)) = cache c) as Hc1
    by apply isRateLimited_keeps_cache.
  destruct (isRateLimited endpoint now c) as [[] c1]; cbn [snd] in Hc1; [by left|].
  pose proof (get_cache url now c1) as Hget.
  destruct (get url now c1) as [cached c2]. cbn [fst snd] in Hget.
  destruct (truthy cached); [done|].
  pose proof (retryLoop_cache url maxRetries ttl net maxRetries 0%nat None
                {| api := c2; clock := now; trace := [CacheRead url] |}) as Hcache.
  cbn zeta in Hcache.
  destruct (retryLoop _ _ _ _ _ _ _ _) as [[w|lastError] r]; cbn [fst snd api] in *; [done|].
  rewrite Hcache, <- Hc1. destruct Hget as [->|[_ ->]]; auto.
Qed.

(** What a call does to the request log: nothing, or one timestamp more in
    the pruned window of its own endpoint. *)
Lemma fetchWithRetry_requestLog url maxRetries ttl net now c :
  let out := fetchWithRetry pathname url maxRetries ttl net now c in
  requestLog (api (snd out)) = requestLog c \/
  exists endpoint recent,
    pathname url = Some endpoint /\ (length recent < maxRequests)%nat /\
    requestLog (api (snd out)) = <[endpoint := recent ++ [now]]> (requestLog c).
Proof.
  intros out. subst out. unfold fetchWithRetry.
  destruct (pathname url) as [endpoint|] eqn:Hurl; [|by left].
  unfold isRateLimited.
  set (recent := List.filter _ _).
  destruct (Nat.leb_spec maxRequests (length recent)); [by left|].
  right. exists endpoint, recent. split; [done|]. split; [done|].
  match goal with |- context [get url now ?x] => set (c1 := x) end.
  pose proof (get_requestLog url now c1) as Hget.
  destruct (get url now c1) as [cached c2]. cbn [snd] in Hget.
  destruct (truthy cached); [done|].
  pose proof (retryLoop_requestLog url maxRetries ttl net maxRetries 0%nat None
                {| api := c2; clock := now; trace := [CacheRead url] |}) as Hlog.
  destruct (retryLoop _ _ _ _ _ _ _ _) as [[w|lastError] r]; cbn [fst snd api] in *;
    by rewrite Hlog, Hget.
Qed.

Lemma fetchWithRetry_keeps_bound url maxRetries ttl net now c :
  windowsBounded c ->
  windowsBounded (api (snd (fetchWithRetry pathname url maxRetries ttl net now c))).
Proof.
  intros Hbound endpoint logs.
  destruct (fetchWithRetry_requestLog url maxRetries ttl net now c)
    as [->|(e & recent & _ & Hroom & ->)]; [apply Hbound|].
  destruct (decide (e = endpoint)) as [->|Hne].
  - rewrite lookup_insert_eq. intros [= <-]. rewrite length_app. cbn. lia.
  - rewrite lookup_insert_ne by done. apply Hbound.
Qed.

(** X6. Starting from a new cache object, no series of calls, to whatever
    URLs and with whatever outcomes, leaves more than 30 timestamps on
    record for any endpoint. *)
Theorem windows_stay_bounded (calls : list call) :
  windowsBounded (apiAfterSession pathname calls empty).
Proof.
  assert (forall c, windowsBounded c -> windowsBounded (apiAfterSession pathname calls c))
    as Hany.
  { unfold apiAfterSession. induction calls as [|k calls IH]; intros c Hc; [done|].
    cbn [fold_left]. by apply IH, fetchWithRetry_keeps_bound. }
  apply Hany. intros endpoint logs. unfold empty. cbn. by rewrite lookup_empty.
Qed.

(** X7. A call touches only its own endpoint and its own URL: the windows
    of the other endpoints and the cache entries of the other URLs are
    left as they were. *)
Theorem call_is_local (url endpoint : string) (maxRetries : nat) (ttl : option Z)
    (net : nat -> Z * outcome) (now : Z) (c : t) :
  pathname url = Some endpoint ->
  let out := fetchWithRetry pathname url maxRetries ttl net now c in
  (forall other, other <> endpoint ->
     requestLog (api (snd out)) !! other = requestLog c !! other) /\
  (forall key, key <> url -> cache (api (snd out)) !! key = cache c !! key).
Proof.
  intros Hurl out. split.
  - intros other Hother. subst out.
    destruct (fetchWithRetry_requestLog url maxRetries ttl net now c)
      as [->|(e & recent & He & _ & ->)]; [done|].
    rewrite Hurl in He. injection He as <-. by rewrite lookup_insert_ne.
  - intros key Hkey. subst out. unfold fetchWithRetry. rewrite Hurl.
    assert (cache (snd (isRateLimited endpoint now c)) = cache c) as Hc1
      by apply isRateLimited_keeps_cache.
    destruct (isRateLimited endpoint now c) as [[] c1]; cbn [snd] in Hc1;
      [cbn; by rewrite Hc1|].
    pose proof (get_cache url now c1) as Hget.
    destruct (get url now c1) as [cached c2]. cbn [fst snd] in Hget.
    assert (cache c2 !! key = cache c !! key) as Hc2.
    { rewrite <- Hc1. destruct Hget as [->|[_ ->]]; [done|]. by rewrite lookup_delete_ne. }
    destruct (truthy cached); [done|].
    pose proof (retryLoop_cache url maxRetries ttl net maxRetries 0%nat None
                  {| api := c2; clock := now; trace := [CacheRead url] |}) as Hcache.
    cbn zeta in Hcache.
    destruct (retryLoop _ _ _ _ _ _ _ _) as [[w|lastError] r]; cbn [fst snd api] in *;
      rewrite Hcache; [by rewrite lookup_insert_ne|done].
Qed.

End CacheEffects.

(** X8. Entries are independent and the last write wins: storing under one
    key does not change what a read of another key returns, and after two
    stores under the same key a read sees only the second. *)
Theorem cache_keys_independent (k k' : string) (v v' : json) (ttl ttl' : option Z)
    (stored stored' read : Z) (c : t) :
  (k <> k' -> fst (get k' read (set k v ttl stored c)) = fst (get k' read c)) /\
  get k read (set k v' ttl' stored' (set k v ttl stored c))
  = get k read (set k v' ttl' stored' c).
Proof.
  split.
  - intros Hne. unfold get, set. cbn [cache]. rewrite lookup_insert_ne by done.
    repeat case_match; done.
  - unfold get, set. cbn [cache requestLog]. by rewrite !lookup_insert_eq, insert_insert_eq.
Qed.

(** No attempts allowed, on a new cache object. *)
Lemma zero_retries_never_fetch_witness :
  fst (fetchWithRetry quotePath quoteUrl 0 None steadyNet 0 empty)
  = Throw "All retry attempts failed" /\
  trace (snd (fetchWithRetry quotePath quoteUrl 0 None steadyNet 0 empty))
  = [CacheRead quoteUrl].
Proof.
  apply (zero_retries_never_fetch quotePath quoteUrl "/api/v1/quote" None steadyNet 0 empty
           eq_refl).
  - apply Nat.ltb_lt. vm_compute. reflexivity.
  - vm_compute. reflexivity.
Defined.

(** A quote fetched at time 0 is served at time 1000 although the network
    is down by then. *)
Lemma fetched_value_is_cached_witness :
  cache (api (snd (fetchWithRetry quotePath quoteUrl 3 None steadyNet 0 empty))) !! quoteUrl
  = Some {| data := quoteBody;
            timestamp := clock (snd (fetchWithRetry quotePath quoteUrl 3 None steadyNet 0 empty));
            ttl := 300000 |} /\
  fst (fetchWithRetry quotePath quoteUrl 3 None downNet 1000
         (api (snd (fetchWithRetry quotePath quoteUrl 3 None steadyNet 0 empty))))
  = Ok quoteBody /\
  trace (snd (fetchWithRetry quotePath quoteUrl 3 None downNet 1000
                (api (snd (fetchWithRetry quotePath quoteUrl 3 None steadyNet 0 empty)))))
  = [CacheRead quoteUrl].
Proof.
  destruct (fetched_value_is_cached quotePath quoteUrl "/api/v1/quote" 3 None steadyNet 0
              empty quoteBody eq_refl) as [Hstored Hserved].
  - vm_compute. reflexivity.
  - apply Nat.leb_le. vm_compute. reflexivity.
  - split; [exact Hstored|].
    apply (Hserved eq_refl 3%nat None downNet 1000).
    + apply Z.leb_le. vm_compute. reflexivity.
    + apply Nat.ltb_lt. vm_compute. reflexivity.
Defined.

(** A cached zero is fetched again. *)
Lemma falsy_entry_is_refetched_witness :
  exists rest,
    trace (snd (fetchWithRetry quotePath quoteUrl 3 None steadyNet 2000 zeroCache))
    = CacheRead quoteUrl :: Fetch quoteUrl :: rest.
Proof.
  apply (falsy_entry_is_refetched quotePath quoteUrl "/api/v1/quote" 3 None steadyNet 2000
           zeroCache {| data := JNum 0; timestamp := 1000; ttl := 300000 |} eq_refl).
  - apply Nat.ltb_lt. vm_compute. reflexivity.
  - vm_compute. reflexivity.
  - cbn. lia.
  - vm_compute. reflexivity.
  - lia.
Defined.

(** A 404 on a new cache object leaves the cache empty. *)
Lemma failed_call_stores_nothing_witness :
  cache (api (snd (fetchWithRetry quotePath quoteUrl 3 None notFoundNet 0 empty))) = cache empty \/
  cache (api (snd (fetchWithRetry quotePath quoteUrl 3 None notFoundNet 0 empty)))
  = delete quoteUrl (cache empty).
Proof.
  apply (failed_call_stores_nothing quotePath quoteUrl 3 None notFoundNet 0 empty
           "HTTP error: 404").
  vm_compute. reflexivity.
Defined.

(** A quote call leaves the window of the profile endpoint and the entry
    of another URL alone. *)
Lemma call_is_local_witness :
  requestLog (api (snd (fetchWithRetry quotePath quoteUrl 3 None steadyNet 2000 warmCache)))
    !! "/api/v1/stock/profile2"
  = requestLog warmCache !! "/api/v1/stock/profile2" /\
  cache (api (snd (fetchWithRetry quotePath quoteUrl 3 None steadyNet 2000 warmCache)))
    !! "https://finnhub.io/api/v1/quote?symbol=MSFT&token=k"
  = cache warmCache !! "https://finnhub.io/api/v1/quote?symbol=MSFT&token=k".
Proof.
  destruct (call_is_local quotePath quoteUrl "/api/v1/quote" 3 None steadyNet 2000 warmCache
              eq_refl) as [Hlog Hcache].
  split; [apply Hlog | apply Hcache]; discriminate.
Defined.

(** Two keys, two writes. *)
Lemma cache_keys_independent_witness :
  fst (get "b" 5 (set "a" (JStr "x") None 0 empty)) = fst (get "b" 5 empty) /\
  get "a" 5 (set "a" (JStr "y") None 1 (set "a" (JStr "x") None 0 empty))
  = get "a" 5 (set "a" (JStr "y") None 1 empty).
Proof.
  destruct (cache_keys_independent "a" "b" (JStr "x") (JStr "y") None None 0 1 5 empty)
    as [Hother Hlast].
  split; [apply Hother; discriminate | exact Hlast].
Defined.

(** ** Order facts of binary64 *)

Lemma SFcompare_antisym (x y : spec_float) :
  SFcompare y x = option_map CompOpp (SFcompare x y).
Proof.
  destruct x as [sx|sx| |sx mx ex], y as [sy|sy| |sy my ey]; cbn;
    try reflexivity; try (by destruct sx); try (by destruct sy); try (by destruct sx, sy).
  rewrite (Z.compare_antisym ex ey).
  replace (Pos.compare_cont Eq my mx) with (CompOpp (Pos.compare_cont Eq mx my))
    by apply Pos.compare_cont_antisym.
  by destruct sx, sy, (ex ?= ey), (Pos.compare_cont Eq mx my).
Qed.

Lemma SFcompare_None (x y : spec_float) :
  SFcompare x y = None -> x = S754_nan \/ y = S754_nan.
Proof.
  destruct x as [sx|sx| |sx mx ex], y as [sy|sy| |sy my ey]; cbn; auto; try discriminate;
    by repeat case_match.
Qed.

Lemma ltb_leb (a b : float) : (a <? b)%float = true -> (a <=? b)%float = true.
Proof.
  rewrite FloatAxioms.ltb_spec, FloatAxioms.leb_spec. unfold SFltb, SFleb.
  by destruct (SFcompare _ _) as [[]|].
Qed.

(** Two numbers are comparable: when the first is not below the second,
    the second is at most the first. *)
Lemma not_ltb_leb (a b : float) :
  is_nan a = false -> is_nan b = false -> (a <? b)%float = false -> (b <=? a)%float = true.
Proof.
  rewrite !is_nan_false_spec, FloatAxioms.ltb_spec, FloatAxioms.leb_spec.
  unfold SFltb, SFleb. intros Ha Hb. rewrite (SFcompare_antisym (Prim2SF a) (Prim2SF b)).
  destruct (SFcompare (Prim2SF a) (Prim2SF b)) as [[]|] eqn:Hcmp; cbn; try done.
  by destruct (SFcompare_None _ _ Hcmp).
Qed.

Lemma leb_not_nan (a b : float) :
  (a <=? b)%float = true -> is_nan a = false /\ is_nan b = false.
Proof.
  rewrite !is_nan_false_spec, FloatAxioms.leb_spec. unfold SFleb.
  destruct (Prim2SF a) as [sa|sa| |sa ma ea], (Prim2SF b) as [sb|sb| |sb mb eb];
    by cbn.
Qed.

Lemma ltb_nan_l (a b : float) : is_nan a = true -> (a <? b)%float = false.
Proof. rewrite is_nan_spec, FloatAxioms.ltb_spec. by intros ->. Qed.

Lemma ltb_nan_r (a b : float) : is_nan b = true -> (a <? b)%float = false.
Proof.
  rewrite is_nan_spec, FloatAxioms.ltb_spec. intros ->. unfold SFltb.
  by destruct (Prim2SF a).
Qed.

(** [Math.min(10, x)] of a number is 10 or [x], and at most 10. *)
Lemma Math_min_ten (x : float) :
  is_nan x = false ->
  Math_min 10 x = 10%float \/ (Math_min 10 x = x /\ (x <=? 10)%float = true).
Proof.
  intros Hx. unfold Math_min. rewrite Hx. cbn [orb is_nan].
  change (is_nan 10) with false. cbn [orb].
  destruct (10 <? x)%float eqn:Hgt; [by left|].
  right. assert ((x <=? 10)%float = true) as Hle by by apply not_ltb_leb.
  destruct (x <? 10)%float; [done|]. by change (get_sign 10) with false.
Qed.

(** [Math.max(0, y)] of a number of at most 10 lies between 0 and 10. *)
Lemma Math_max_zero (y : float) :
  is_nan y = false -> (y <=? 10)%float = true -> zeroToTen (Math_max 0 y).
Proof.
  intros Hy Hle. unfold Math_max, zeroToTen. rewrite Hy.
  change (is_nan 0) with false. cbn [orb].
  destruct (0 <? y)%float eqn:Hpos; [split; [by apply ltb_leb|done]|].
  destruct (y <? 0)%float; [done|]. by change (get_sign 0) with false.
Qed.

Lemma clamp_zero_to_ten (x : float) :
  is_nan x = false -> zeroToTen (Math_max 0 (Math_min 10 x)).
Proof.
  intros Hx. destruct (Math_min_ten x Hx) as [->|[-> Hle]]; [done|].
  by apply Math_max_zero.
Qed.

(** Rounding a positive mantissa never gives NaN. *)
Lemma binary_round_aux_not_nan (s : bool) (m : positive) (e : Z) (l : location) :
  binary_round_aux prec emax s (Zpos m) e l <> S754_nan.
Proof.
  unfold binary_round_aux, shr_fexp.
  set (n1 := fexp prec emax (Zdigits2 (Zpos m) + e) - e).
  destruct (shr_bounds (shr_record_of_loc (Zpos m) l) e n1) as [Hm1 _].
  { rewrite shr_m_of_loc. lia. }
  destruct (shr (shr_record_of_loc (Zpos m) l) e n1) as [mrs1 e1]. cbn [fst snd] in *.
  set (m1 := round_nearest_even (shr_m mrs1) (loc_of_shr_record mrs1)).
  pose proof (round_nearest_even_bounds (shr_m mrs1) (loc_of_shr_record mrs1) ltac:(lia)) as Hr.
  fold m1 in Hr.
  set (n2 := fexp prec emax (Zdigits2 m1 + e1) - e1).
  destruct (shr_bounds (shr_record_of_loc m1 loc_Exact) e1 n2) as [Hm2 _].
  { cbn. lia. }
  destruct (shr (shr_record_of_loc m1 loc_Exact) e1 n2) as [mrs2 e2]. cbn [fst snd] in *.
  destruct (shr_m mrs2) as [|p|p]; [done| |lia]. by case_match.
Qed.

(** Doubling a number gives a number. *)
Lemma double_not_nan (x : float) : is_nan x = false -> is_nan (x * 2) = false.
Proof.
  rewrite !is_nan_false_spec, mul_spec.
  change (Prim2SF 2) with (S754_finite false 4503599627370496 (-51)).
  destruct (Prim2SF x) as [s|s| |s m e]; try done.
  intros _. apply binary_round_aux_not_nan.
Qed.

Lemma truthy_opt_number (o : option float) :
  truthy_opt o = true -> is_nan (num_of_opt o) = false.
Proof.
  destruct o as [x|]; [|done]. cbn. unfold truthy_num.
  by destruct (is_nan x).
Qed.

(** ** Recommendation: score ranges and the overall label *)

(** X9. The three scores of a recommendation always lie between 0 and 10;
    in particular none of them is NaN, whatever the yield. *)
Theorem recommendation_scores_in_range (d : StockDetails) :
  zeroToTen (longTerm (generateInvestmentRecommendation d)) /\
  zeroToTen (shortTerm (generateInvestmentRecommendation d)) /\
  zeroToTen (dividendScore (generateInvestmentRecommendation d)).
Proof.
  unfold generateInvestmentRecommendation. cbv zeta.
  repeat (rewrite let_pair_if, ?if_snoc).
  cbn [longTerm shortTerm dividendScore]. split; [|split].
  - destruct (present_below (peRatio d) 15), (present_above (roe d) 15),
      (present_below (debtToEquity d) 0.5), (present_above (currentRatio d) 1.5),
      (present_above (grossMargin d) 30); by vm_compute.
  - destruct (present_above (changePercent d) 5), (present_below (changePercent d) (-5)),
      (isBullish d), (highVolume d); by vm_compute.
  - destruct (truthy_opt (dividend d)) eqn:Hpaid; [|by vm_compute].
    apply clamp_zero_to_ten.
    destruct (Math_min_ten (num_of_opt (dividend d) * 2)) as [->|[-> _]]; [|done|];
      by apply double_not_nan, truthy_opt_number.
Qed.

(** X10. Without a dividend (yield absent, zero or NaN) the overall label
    is never BUY; and it is SELL when, in addition, none of the three
    short-term bonuses and at most two of the five long-term rules
    trigger. *)
Theorem no_dividend_no_buy (d : StockDetails) :
  truthy_opt (dividend d) = false ->
  overall (generateInvestmentRecommendation d) <> BUY /\
  ((length (List.filter id (longTermTriggers d)) <= 2)%nat ->
   shortTermBonuses d = [false; false; false] ->
   overall (generateInvestmentRecommendation d) = SELL).
Proof.
  intros Hpaid. unfold generateInvestmentRecommendation, longTermTriggers, shortTermBonuses.
  cbv zeta. repeat (rewrite let_pair_if, ?if_snoc). rewrite Hpaid. cbn [overall].
  destruct (present_below (peRatio d) 15), (present_above (roe d) 15),
    (present_below (debtToEquity d) 0.5), (present_above (currentRatio d) 1.5),
    (present_above (grossMargin d) 30), (present_above (changePercent d) 5),
    (present_below (changePercent d) (-5)), (isBullish d), (highVolume d);
    (split; [by vm_compute|]); intros Hcount Hbonus;
    first [ discriminate Hbonus | cbn in Hcount; lia | by vm_compute ].
Qed.

(** A falling stock without dividend. *)
Lemma no_dividend_no_buy_witness :
  overall (generateInvestmentRecommendation fallingStock) <> BUY /\
  overall (generateInvestmentRecommendation fallingStock) = SELL.
Proof.
  destruct (no_dividend_no_buy fallingStock eq_refl) as [Hbuy Hsell].
  split; [exact Hbuy|]. apply Hsell; [cbn; lia | reflexivity].
Defined.

(** ** Risk rubric: missing data, dominant factors, the two versions *)

(** X11. Ratios that are missing ([undefined], hence NaN in every
    comparison) add nothing: with beta, P/E and market cap all missing and
    debt-to-equity absent, zero or NaN, the score is 0 and the level is
    Low Risk. *)
Theorem missing_ratios_read_as_low_risk (beta pe cap : float) (debt : option float) :
  is_nan beta = true -> is_nan pe = true -> is_nan cap = true -> truthy_opt debt = false ->
  score (getRiskLevel beta pe cap debt) = 0%float /\
  level (getRiskLevel beta pe cap debt) = "Low Risk".
Proof.
  intros Hbeta Hpe Hcap Hdebt. unfold getRiskLevel.
  rewrite !(ltb_nan_r _ beta Hbeta), !(ltb_nan_r _ pe Hpe), !(ltb_nan_l cap _ Hcap), Hdebt.
  by vm_compute.
Qed.

Lemma missing_ratios_read_as_low_risk_witness :
  score (getRiskLevel nan nan nan None) = 0%float /\
  level (getRiskLevel nan nan nan None) = "Low Risk".
Proof.
  apply (missing_ratios_read_as_low_risk nan nan nan None); reflexivity.
Defined.

(** X12. Two factors at their maximum (of beta above 1.5, P/E above 30,
    market cap below 2) make the level High Risk whatever the rest, and
    one of them excludes Low Risk. *)
Theorem dominant_risk_factors (beta pe cap : float) (debt : option float) :
  let maxed := length (List.filter id [(1.5 <? beta)%float; (30 <? pe)%float; (cap <? 2)%float]) in
  ((2 <= maxed)%nat -> level (getRiskLevel beta pe cap debt) = "High Risk") /\
  ((1 <= maxed)%nat -> level (getRiskLevel beta pe cap debt) <> "Low Risk").
Proof.
  unfold getRiskLevel.
  destruct (1.5 <? beta)%float; [|destruct (1.2 <? beta)%float; [|destruct (1 <? beta)%float]];
    (destruct (30 <? pe)%float; [|destruct (20 <? pe)%float; [|destruct (15 <? pe)%float]]);
    (destruct (cap <? 2)%float; [|destruct (cap <? 10)%float; [|destruct (cap <? 50)%float]]);
    (destruct (truthy_opt debt);
     [destruct (1 <? num_of_opt debt)%float; [|destruct (0.5 <? num_of_opt debt)%float]|]);
    cbn [List.filter id length]; (split; intros Hmaxed; [|intros Hlow]);
    first [ lia | by vm_compute | by vm_compute in Hlow ].
Qed.

Lemma dominant_risk_factors_witness :
  level (getRiskLevel 2 35 100 None) = "High Risk" /\
  level (getRiskLevel 2 10 100 None) <> "Low Risk".
Proof.
  destruct (dominant_risk_factors 2 35 100 None) as [Hhigh _].
  destruct (dominant_risk_factors 2 10 100 None) as [_ Hnotlow].
  split; [apply Hhigh | apply Hnotlow]; vm_compute; lia.
Defined.

(** X13. The rubric of the current stock page is never milder than the
    rubric of the earlier page on the same ratios: where the earlier one
    says High Risk so does the current one, and where the earlier one says
    Medium Risk the current one does not say Low Risk, whatever the
    debt-to-equity. *)
Theorem risk_rubric_not_milder (beta pe cap : float) (debt : option float) :
  (BasicStockPage.level (BasicStockPage.getRiskLevel beta pe cap) = "High Risk" ->
   level (getRiskLevel beta pe cap debt) = "High Risk") /\
  (BasicStockPage.level (BasicStockPage.getRiskLevel beta pe cap) = "Medium Risk" ->
   level (getRiskLevel beta pe cap debt) <> "Low Risk").
Proof.
  unfold getRiskLevel, BasicStockPage.getRiskLevel.
  destruct (1.5 <? beta)%float; [|destruct (1.2 <? beta)%float; [|destruct (1 <? beta)%float]];
    (destruct (30 <? pe)%float; [|destruct (20 <? pe)%float; [|destruct (15 <? pe)%float]]);
    (destruct (cap <? 2)%float; [|destruct (cap <? 10)%float; [|destruct (cap <? 50)%float]]);
    (destruct (truthy_opt debt);
     [destruct (1 <? num_of_opt debt)%float; [|destruct (0.5 <? num_of_opt debt)%float]|]);
    (split; intros Hbasic; [|intros Hlow]);
    first [ by vm_compute in Hbasic | by vm_compute | by vm_compute in Hlow ].
Qed.

Lemma risk_rubric_not_milder_witness :
  level (getRiskLevel 2 35 100 None) = "High Risk" /\
  level (getRiskLevel 1.3 25 100 None) <> "Low Risk".
Proof.
  destruct (risk_rubric_not_milder 2 35 100 None) as [Hhigh _].
  destruct (risk_rubric_not_milder 1.3 25 100 None) as [_ Hmedium].
  split; [apply Hhigh | apply Hmedium]; vm_compute; reflexivity.
Defined.

(** ** Holdings loop: partition of the stored items *)

Lemma processItem_saved today fetchSymbol item :
  isSaved item = true -> processItem today fetchSymbol item = ([], [itemSymbol item]).
Proof.
  unfold isSaved, processItem. destruct item as [s|s sh ap pd]; cbn [itemShares itemSymbol].
  - done.
  - by intros ->.
Qed.

Lemma processItem_held today fetchSymbol item :
  isSaved item = false ->
  snd (processItem today fetchSymbol item) = [] /\
  (fst (processItem today fetchSymbol item) = [] \/
   exists h, fst (processItem today fetchSymbol item) = [h] /\
     symbol h = itemSymbol item /\ shares h = itemShares item /\
     totalValue h = (currentPrice h * shares h)%float).
Proof.
  unfold isSaved, processItem. destruct item as [s|s sh ap pd]; cbn [itemShares itemSymbol].
  - done.
  - intros ->. destruct (fetchSymbol s) as [|stockData profileData].
    + split; [done|]. right. by eexists.
    + destruct (quotedPrice stockData) as [price|]; [|by split; [|left]].
      destruct (classify s profileData) as [sector_ industry_].
      split; [done|]. right. by eexists.
Qed.

(** X14. The loop splits the stored items: the watch list is exactly the
    symbols of the items without shares, in stored order; the holdings
    come, in stored order, from items with shares, each with the share
    count read from its item (so never zero) and a value equal to its
    current price times its shares. *)
Theorem loop_partitions_items (today : float) (fetchSymbol : string -> Fetched)
    (portfolioData : list PortfolioItem) :
  let out := processItems today fetchSymbol portfolioData in
  snd out = map itemSymbol (List.filter isSaved portfolioData) /\
  map symbol (fst out)
    `sublist_of` map itemSymbol (List.filter (fun item => negb (isSaved item)) portfolioData) /\
  Forall (fun h => (shares h =? 0)%float = false /\
                   totalValue h = (currentPrice h * shares h)%float) (fst out).
Proof.
  induction portfolioData as [|item rest IH]; [by repeat split|].
  cbn [processItems List.filter]. cbn zeta in IH.
  destruct (processItems today fetchSymbol rest) as [hs' ws']. cbn [fst snd] in IH.
  destruct IH as (Hws & Hhs & Hall).
  destruct (isSaved item) eqn:Hsaved.
  - rewrite (processItem_saved _ _ _ Hsaved). cbn. by rewrite Hws.
  - destruct (processItem_held today fetchSymbol item Hsaved) as [Hnone Hsome].
    destruct (processItem today fetchSymbol item) as [hs ws]. cbn [fst snd negb map] in *.
    subst ws. destruct Hsome as [->|(h & -> & Hsym & Hsh & Hval)]; cbn.
    + split; [done|]. split; [by apply sublist_cons|done].
    + split; [done|]. split; [rewrite Hsym; by apply sublist_skip|].
      constructor; [|done]. split; [|done]. by rewrite Hsh.
Qed.

(** X15. Items without shares are never looked up: two providers that
    agree on the symbols held with shares give the same holdings and watch
    list; and a portfolio of saved symbols only yields no summary and
    lists all its symbols, whatever the provider answers. *)
Theorem saved_symbols_are_not_fetched (pow : float -> float -> float) (today : float)
    (fetchSymbol fetchSymbol' : string -> Fetched) (portfolioData : list PortfolioItem) :
  (Forall (fun item => isSaved item = false ->
                       fetchSymbol (itemSymbol item) = fetchSymbol' (itemSymbol item))
          portfolioData ->
   processItems today fetchSymbol portfolioData = processItems today fetchSymbol' portfolioData) /\
  (Forall (fun item => isSaved item = true) portfolioData ->
   summarize pow today fetchSymbol portfolioData = (None, map itemSymbol portfolioData)).
Proof.
  split.
  - induction 1 as [|item rest Hitem _ IH]; [done|].
    cbn [processItems]. rewrite IH.
    destruct (isSaved item) eqn:Hsaved.
    + by rewrite !(processItem_saved _ _ _ Hsaved).
    + specialize (Hitem eq_refl). unfold processItem.
      destruct item as [s|s sh ap pd]; [done|]. cbn [itemSymbol] in Hitem. by rewrite Hitem.
  - intros Hall.
    assert (processItems today fetchSymbol portfolioData = ([], map itemSymbol portfolioData))
      as Hloop.
    { induction Hall as [|item rest Hsaved _ IH]; [done|].
      cbn [processItems]. by rewrite IH, (processItem_saved _ _ _ Hsaved). }
    unfold summarize. rewrite Hloop. by destruct portfolioData.
Qed.

Lemma saved_symbols_are_not_fetched_witness :
  processItems 0 pricedFetch mixedPortfolio
  = processItems 0 (fun s => if String.eqb s "AAPL" then pricedFetch s else Rejected)
      mixedPortfolio /\
  summarize examplePow 0 failingFetch [SymbolOnly "MSFT"; Entry "TSLA" (Some 0%float) None NoDate]
  = (None, ["MSFT"; "TSLA"]).
Proof.
  split.
  - apply (saved_symbols_are_not_fetched examplePow 0 pricedFetch
             (fun s => if String.eqb s "AAPL" then pricedFetch s else Rejected) mixedPortfolio).
    repeat constructor; vm_compute; (discriminate || reflexivity).
  - apply (saved_symbols_are_not_fetched examplePow 0 failingFetch failingFetch
             [SymbolOnly "MSFT"; Entry "TSLA" (Some 0%float) None NoDate]).
    repeat constructor.
Defined.

(** ** Portfolio return: when it is null *)

(** The opposite of a positive number is not positive. *)
Lemma opp_positive_not_positive (x : float) :
  (0 <? x)%float = true -> (0 <? - x)%float = false.
Proof.
  rewrite !FloatAxioms.ltb_spec, opp_spec. change (Prim2SF 0) with (S754_zero false).
  unfold SFltb. by destruct (Prim2SF x) as [s|[]| |[] m e].
Qed.

(** X16. The annualised return of a portfolio is null when no holding has
    a positive cost (shares times average price), and when the total
    current value is not positive, whatever the power function. *)
Theorem portfolio_xirr_null (pow : float -> float -> float) (today : float)
    (holdings : list PortfolioHolding) :
  Forall (fun h => hasCost h = false) holdings \/
  (0 <? fold_left (fun sum h => (sum + totalValue h)%float) holdings 0%float)%float = false ->
  calculatePortfolioXIRR pow today holdings = None.
Proof.
  intros Hcase. unfold calculatePortfolioXIRR. destruct holdings as [|h0 rest]; [done|].
  set (holdings := h0 :: rest) in *.
  destruct Hcase as [Hfree|Hworthless].
  - fold hasCost. rewrite (filter_none hasCost holdings Hfree). cbn [map app].
    by destruct (0 <? _)%float.
  - rewrite Hworthless. unfold calculateXIRR.
    match goal with |- (if ?shape then _ else _) = _ => destruct shape end; [done|].
    rewrite (filter_none (fun cf => (0 <? cf)%float)); [done|].
    apply Forall_forall. intros cf Hin. apply list_elem_of_In, in_map_iff in Hin as (h & <- & Hh).
    apply filter_In in Hh as [_ Hcost]. by apply opp_positive_not_positive.
Qed.

Lemma portfolio_xirr_null_witness :
  calculatePortfolioXIRR examplePow 0 [freeHolding] = None.
Proof.
  apply (portfolio_xirr_null examplePow 0 [freeHolding]). left. by repeat constructor.
Defined.

(** ** Diversity: the labels counted *)

Lemma cleanLabel_clean (fallback : string) (label : option string) :
  fallback <> "Unknown" -> trim fallback <> "" ->
  cleanLabel fallback label <> "Unknown" /\ trim (cleanLabel fallback label) <> "".
Proof.
  intros Hunknown Hblank. unfold cleanLabel.
  set (chosen := if truthy_string label then default fallback label else fallback).
  destruct (String.eqb_spec chosen "Unknown"); [done|].
  destruct (String.eqb_spec (trim chosen) ""); done.
Qed.

Lemma diversity_fold (total : float) (holdings : list PortfolioHolding) :
  forall sectors industries : gmap string float,
    let out :=
      fold_left
        (fun '(sectorDistribution, industryDistribution) holding =>
           let percentage := (totalValue holding / total * 100)%float in
           let sector := cleanLabel "Technology" (holdingSector holding) in
           let industry := cleanLabel "Software" (holdingIndustry holding) in
           (addShare sector percentage sectorDistribution,
            addShare industry percentage industryDistribution))
        holdings (sectors, industries) in
    dom (fst out) = dom sectors ∪ countedSectors holdings /\
    dom (snd out) = dom industries ∪ countedIndustries holdings.
Proof.
  induction holdings as [|h rest IH]; intros sectors industries.
  { unfold countedSectors, countedIndustries. cbn. by rewrite !union_empty_r_L. }
  cbn [fold_left]. cbn zeta in IH |- *.
  destruct (IH (addShare (cleanLabel "Technology" (holdingSector h))
                  (totalValue h / total * 100)%float sectors)
               (addShare (cleanLabel "Software" (holdingIndustry h))
                  (totalValue h / total * 100)%float industries)) as [-> ->].
  unfold addShare, countedSectors, countedIndustries. cbn [map list_to_set].
  rewrite !dom_insert_L.
  split; by rewrite (comm_L (∪) {[_]} (dom _)), <- (assoc_L (∪)).
Qed.

(** X17. When the total value is zero both distributions are empty;
    otherwise their keys are exactly the cleaned sector and industry labels
    of the holdings.  In both cases no key is "Unknown" or blank: such
    holdings are counted under Technology and Software. *)
Theorem diversity_keys (holdings : list PortfolioHolding) :
  let total := fold_left (fun sum h => (sum + totalValue h)%float) holdings 0%float in
  let out := calculateDiversity holdings in
  ((total =? 0)%float = true -> out = (∅, ∅)) /\
  ((total =? 0)%float = false ->
   dom (fst out) = countedSectors holdings /\ dom (snd out) = countedIndustries holdings) /\
  (forall key, key ∈ dom (fst out) ∪ dom (snd out) -> key <> "Unknown" /\ trim key <> "").
Proof.
  intros total out. subst out. unfold calculateDiversity. fold total.
  assert (forall key, key ∈ countedSectors holdings ∪ countedIndustries holdings ->
                      key <> "Unknown" /\ trim key <> "") as Hclean.
  { intros key Hkey. unfold countedSectors, countedIndustries in Hkey.
    apply elem_of_union in Hkey as [Hkey|Hkey];
      apply elem_of_list_to_set, list_elem_of_In, in_map_iff in Hkey as (h & <- & _);
      by apply cleanLabel_clean. }
  destruct (total =? 0)%float.
  - split; [done|]. split; [done|]. intros key Hkey. cbn [fst snd] in Hkey.
    rewrite dom_empty_L, union_empty_l_L in Hkey. by apply elem_of_empty in Hkey.
  - destruct (diversity_fold total holdings ∅ ∅) as [Hs Hi]. cbn zeta in Hs, Hi.
    rewrite dom_empty_L, union_empty_l_L in Hs, Hi.
    split; [done|]. split; [done|]. intros key Hkey. apply Hclean. by rewrite <- Hs, <- Hi.
Qed.

Lemma diversity_keys_witness :
  calculateDiversity [freeHolding] = (∅, ∅) /\
  (dom (fst (calculateDiversity [appleHolding])) = countedSectors [appleHolding] /\
   dom (snd (calculateDiversity [appleHolding])) = countedIndustries [appleHolding]) /\
  ("Technology" <> "Unknown" /\ trim "Technology" <> "").
Proof.
  destruct (diversity_keys [freeHolding]) as (Hzero & _ & _).
  destruct (diversity_keys [appleHolding]) as (_ & Hkeys & Hclean).
  split; [|split].
  - apply Hzero. vm_compute. reflexivity.
  - apply Hkeys. vm_compute. reflexivity.
  - apply (Hclean "Technology"). destruct Hkeys as [-> _]; [vm_compute; reflexivity|].
    apply elem_of_union_l. unfold countedSectors. cbn.
    by apply elem_of_union_l, elem_of_singleton.
Defined.

(** ** Editing the stored portfolio *)

Lemma find_filter_out {A} (p : A -> bool) (l : list A) :
  List.find p (List.filter (fun x => negb (p x)) l) = None.
Proof.
  induction l as [|x l IH]; [done|]. cbn. destruct (p x) eqn:Hp; cbn; [done|]. by rewrite Hp.
Qed.

Lemma find_app_none {A} (p : A -> bool) (l1 l2 : list A) :
  List.find p l1 = None -> List.find p (l1 ++ l2) = List.find p l2.
Proof.
  induction l1 as [|x l1 IH]; [done|]. cbn. by destruct (p x).
Qed.

Lemma filter_filter_out {A} (p : A -> bool) (l : list A) :
  List.filter p (List.filter (fun x => negb (p x)) l) = [].
Proof.
  induction l as [|x l IH]; [done|]. cbn. destruct (p x) eqn:Hp; cbn; [done|]. by rewrite Hp.
Qed.

Lemma filter_idem {A} (p : A -> bool) (l : list A) :
  List.filter p (List.filter p l) = List.filter p l.
Proof.
  induction l as [|x l IH]; [done|]. cbn. destruct (p x) eqn:Hp; cbn; [|done].
  by rewrite Hp, IH.
Qed.

Lemma filter_comm {A} (p q : A -> bool) (l : list A) :
  List.filter p (List.filter q l) = List.filter q (List.filter p l).
Proof.
  induction l as [|x l IH]; [done|]. cbn.
  destruct (p x) eqn:Hp, (q x) eqn:Hq; cbn; rewrite ?Hp, ?Hq, IH; done.
Qed.

Lemma find_filter_other {A} (p q : A -> bool) (l : list A) :
  (forall x, p x = true -> q x = true) ->
  List.find p (List.filter q l) = List.find p l.
Proof.
  intros Hpq. induction l as [|x l IH]; [done|]. cbn.
  destruct (p x) eqn:Hp.
  - rewrite (Hpq x Hp). cbn. by rewrite Hp.
  - destruct (q x); cbn; by rewrite ?Hp.
Qed.

Lemma isSymbol_other (s s' : string) (item : PortfolioItem) :
  s <> s' -> isSymbol s' item = true -> negb (isSymbol s item) = true.
Proof.
  unfold isSymbol. intros Hne Hs'. apply String.eqb_eq in Hs'.
  apply negb_true_iff, String.eqb_neq. congruence.
Qed.

(** X18. A written edit leaves exactly one item for the selected symbol,
    the new entry, placed last; the items of every other symbol are kept
    in their order; and looking the symbol up afterwards returns the new
    entry, whatever was stored for it before. *)
Theorem edit_replaces_entry (loggedIn : bool) (selectedStock : string)
    (shares_ avgPrice_ : float) (isEditing : bool) (now later : float)
    (currentPortfolio written : list PortfolioItem) (message : string) :
  handleAddOrUpdatePortfolio loggedIn selectedStock shares_ avgPrice_ isEditing now
    currentPortfolio = Written written message ->
  let entry := Entry selectedStock (Some shares_) (Some avgPrice_) (DateValue now) in
  List.filter (isSymbol selectedStock) written = [entry] /\
  List.last written entry = entry /\
  List.filter (fun item => negb (isSymbol selectedStock item)) written =
    List.filter (fun item => negb (isSymbol selectedStock item)) currentPortfolio /\
  checkExistingStock later selectedStock written = Some entry.
Proof.
  intros Hedit entry. unfold handleAddOrUpdatePortfolio in Hedit.
  destruct loggedIn; [|done]. cbn [negb] in Hedit.
  destruct (String.eqb selectedStock ""); [done|].
  destruct ((shares_ <? 0)%float || (avgPrice_ <? 0)%float); [done|].
  injection Hedit as <- _. fold entry.
  assert (isSymbol selectedStock entry = true) as Hentry.
  { unfold isSymbol, entry. cbn. apply String.eqb_refl. }
  rewrite !List.filter_app, filter_filter_out, filter_idem. cbn [List.filter].
  rewrite Hentry. cbn [negb app]. rewrite app_nil_r, List.last_last.
  repeat split; [done..|].
  unfold checkExistingStock.
  rewrite (find_app_none _ _ _ (find_filter_out (isSymbol selectedStock) currentPortfolio)).
  cbn [List.find]. by rewrite Hentry.
Qed.

Lemma edit_replaces_entry_witness :
  let entry := Entry "AAPL" (Some 3%float) (Some 170%float) (DateValue 5%float) in
  let written := [SymbolOnly "MSFT"; Entry "TSLA" (Some 0%float) (Some 0%float) NoDate; entry] in
  List.filter (isSymbol "AAPL") written = [entry] /\
  List.last written entry = entry /\
  List.filter (fun item => negb (isSymbol "AAPL" item)) written =
    List.filter (fun item => negb (isSymbol "AAPL" item)) mixedPortfolio /\
  checkExistingStock 9%float "AAPL" written = Some entry.
Proof.
  apply (edit_replaces_entry true "AAPL" 3%float 170%float false 5%float 9%float mixedPortfolio
           _ "AAPL added to portfolio successfully!").
  vm_compute. reflexivity.
Defined.


(** X20. Removing a symbol leaves nothing to look up for it, changes no
    lookup of another symbol, and can be repeated without effect; an edit
    followed by the removal of its symbol writes what the removal alone
    writes. *)
Theorem removal_undoes_edit (selectedStock other : string) (shares_ avgPrice_ : float)
    (isEditing : bool) (now later : float) (currentPortfolio written : list PortfolioItem)
    (message : string) :
  other <> selectedStock ->
  handleAddOrUpdatePortfolio true selectedStock shares_ avgPrice_ isEditing now
    currentPortfolio = Written written message ->
  let removed := handleRemoveFromPortfolio selectedStock currentPortfolio in
  checkExistingStock later selectedStock removed = None /\
  checkExistingStock later other removed = checkExistingStock later other currentPortfolio /\
  handleRemoveFromPortfolio selectedStock removed = removed /\
  handleRemoveFromPortfolio selectedStock written = removed.
Proof.
  intros Hother Hedit removed. subst removed. unfold handleRemoveFromPortfolio, checkExistingStock.
  rewrite find_filter_out, filter_idem.
  rewrite (find_filter_other (isSymbol other)
             (fun item => negb (isSymbol selectedStock item)) currentPortfolio)
    by (intros item; by apply isSymbol_other).
  repeat split; [done..|].
  unfold handleAddOrUpdatePortfolio in Hedit. cbn [negb] in Hedit.
  destruct (String.eqb selectedStock ""); [done|].
  destruct ((shares_ <? 0)%float || (avgPrice_ <? 0)%float); [done|].
  injection Hedit as <- _. rewrite List.filter_app, filter_idem. cbn [List.filter].
  unfold isSymbol at 2. cbn [itemSymbol]. rewrite String.eqb_refl. cbn [negb].
  by rewrite app_nil_r.
Qed.

Lemma removal_undoes_edit_witness :
  let removed := handleRemoveFromPortfolio "AAPL" mixedPortfolio in
  checkExistingStock 9%float "AAPL" removed = None /\
  checkExistingStock 9%float "MSFT" removed = checkExistingStock 9%float "MSFT" mixedPortfolio /\
  handleRemoveFromPortfolio "AAPL" removed = removed /\
  handleRemoveFromPortfolio "AAPL"
    (removed ++ [Entry "AAPL" (Some 3%float) (Some 170%float) (DateValue 5%float)]) = removed.
Proof.
  apply (removal_undoes_edit "AAPL" "MSFT" 3%float 170%float false 5%float 9%float
           mixedPortfolio _ "AAPL added to portfolio successfully!").
  - discriminate.
  - vm_compute. reflexivity.
Defined.

Lemma processItems_app today fetchSymbol (l1 l2 : list PortfolioItem) :
  processItems today fetchSymbol (l1 ++ l2) =
  (fst (processItems today fetchSymbol l1) ++ fst (processItems today fetchSymbol l2),
   snd (processItems today fetchSymbol l1) ++ snd (processItems today fetchSymbol l2)).
Proof.
  induction l1 as [|item l1 IH]; cbn [app processItems].
  - by destruct (processItems today fetchSymbol l2).
  - rewrite IH. destruct (processItem today fetchSymbol item) as [hs ws].
    destruct (processItems today fetchSymbol l1) as [hs1 ws1]. cbn [fst snd].
    by rewrite !app_assoc.
Qed.

Lemma processItem_symbols today fetchSymbol item :
  Forall (fun h => symbol h = itemSymbol item) (fst (processItem today fetchSymbol item)) /\
  Forall (fun w => w = itemSymbol item) (snd (processItem today fetchSymbol item)).
Proof.
  destruct (isSaved item) eqn:Hsaved.
  - rewrite (processItem_saved _ _ _ Hsaved). cbn. by repeat constructor.
  - destruct (processItem_held today fetchSymbol item Hsaved) as [-> [->|(h & -> & Hsym & _)]];
      by repeat constructor.
Qed.

(** Nothing the loop produces carries a symbol that no stored item has. *)
Lemma processItems_symbols today fetchSymbol (s : string) (portfolioData : list PortfolioItem) :
  Forall (fun item => itemSymbol item <> s) portfolioData ->
  Forall (fun h => symbol h <> s) (fst (processItems today fetchSymbol portfolioData)) /\
  Forall (fun w => w <> s) (snd (processItems today fetchSymbol portfolioData)).
Proof.
  induction 1 as [|item rest Hitem _ IH]; [by split|]. cbn [processItems].
  destruct (processItem_symbols today fetchSymbol item) as [Hhs Hws].
  destruct (processItem today fetchSymbol item) as [hs ws].
  destruct (processItems today fetchSymbol rest) as [hs' ws']. cbn [fst snd] in *.
  destruct IH as [IHh IHw]. split; apply Forall_app; (split; [|done]).
  - eapply Forall_impl; [exact Hhs|]. cbn. congruence.
  - eapply Forall_impl; [exact Hws|]. cbn. congruence.
Qed.

Lemma filter_out_symbol (s : string) (portfolioData : list PortfolioItem) :
  Forall (fun item => itemSymbol item <> s)
    (List.filter (fun item => negb (isSymbol s item)) portfolioData).
Proof.
  apply Forall_forall. intros item Hin. apply list_elem_of_In, filter_In in Hin as [_ Hne].
  by apply negb_true_iff, String.eqb_neq in Hne.
Qed.

Lemma filter_symbol_none (s : string) (hs : list PortfolioHolding) :
  Forall (fun h => symbol h <> s) hs ->
  List.filter (fun h => String.eqb (symbol h) s) hs = [].
Proof.
  induction 1 as [|h hs Hh _ IH]; [done|]. cbn. apply String.eqb_neq in Hh. by rewrite Hh.
Qed.

Lemma truthy_num_not_zero (x : float) : truthy_num x = true -> (x =? 0)%float = false.
Proof.
  unfold truthy_num, is_zero. intros Ht. apply negb_true_iff, orb_false_iff in Ht. tauto.
Qed.

(** X21. After an edit, the next load treats the symbol as follows.  A
    share count of zero, or one that is not a number, puts the symbol on
    the watch list and gives no holding for it.  Any other share count
    keeps it off the watch list and gives at most one holding for it,
    with that share count. *)
Theorem edited_entry_in_loop (selectedStock : string) (shares_ avgPrice_ : float)
    (isEditing : bool) (now today : float) (fetchSymbol : string -> Fetched)
    (currentPortfolio written : list PortfolioItem) (message : string) :
  handleAddOrUpdatePortfolio true selectedStock shares_ avgPrice_ isEditing now
    currentPortfolio = Written written message ->
  let out := processItems today fetchSymbol written in
  let held := List.filter (fun h => String.eqb (symbol h) selectedStock) (fst out) in
  if truthy_num shares_
  then ~ In selectedStock (snd out) /\ (length held <= 1)%nat /\
       Forall (fun h => shares h = shares_) held
  else In selectedStock (snd out) /\ held = [].
Proof.
  intros Hedit out held. subst held out.
  unfold handleAddOrUpdatePortfolio in Hedit. cbn [negb] in Hedit.
  destruct (String.eqb selectedStock ""); [done|].
  destruct ((shares_ <? 0)%float || (avgPrice_ <? 0)%float); [done|].
  injection Hedit as <- _. rewrite processItems_app. cbn [fst snd].
  destruct (processItems_symbols today fetchSymbol selectedStock _
              (filter_out_symbol selectedStock currentPortfolio)) as [Hhs Hws].
  rewrite List.filter_app, (filter_symbol_none _ _ Hhs). cbn [app].
  set (entry := Entry selectedStock (Some shares_) (Some avgPrice_) (DateValue now)).
  assert (forall p : list PortfolioHolding * list string,
             (let '(hs, ws) := p in let '(hs', ws') := ([], []) in (hs ++ hs', ws ++ ws')) = p)
    as Hone by (intros [hs ws]; by rewrite !app_nil_r).
  cbn [processItems]. rewrite Hone. clear Hone.
  destruct (truthy_num shares_) eqn:Htruthy.
  - assert (isSaved entry = false) as Hheld.
    { unfold isSaved, entry. cbn [itemShares num_or]. rewrite Htruthy.
      by apply truthy_num_not_zero. }
    destruct (processItem_held today fetchSymbol entry Hheld) as [-> Hsome].
    rewrite app_nil_r. split.
    { intros Hin. apply list_elem_of_In in Hin.
      by apply (proj1 (Forall_forall _ _) Hws) in Hin. }
    destruct Hsome as [->|(h & -> & _ & Hsh & _)]; [by split; [cbn; lia|]|].
    cbn [List.filter]. assert (shares h = shares_) as Hshares.
    { rewrite Hsh. unfold entry. cbn [itemShares num_or]. by rewrite Htruthy. }
    destruct (String.eqb (symbol h) selectedStock); cbn [length]; split; try lia;
      by repeat constructor.
  - assert (isSaved entry = true) as Hsaved.
    { unfold isSaved, entry. cbn [itemShares num_or]. by rewrite Htruthy. }
    rewrite (processItem_saved _ _ _ Hsaved). cbn [fst snd List.filter].
    split; [|done]. apply in_or_app. right. by left.
Qed.

Lemma edited_entry_in_loop_witness :
  In "AAPL"
    (snd (processItems 0 pricedFetch
            [SymbolOnly "MSFT"; Entry "TSLA" (Some 0%float) (Some 0%float) NoDate;
             Entry "AAPL" (Some nan) (Some 170%float) (DateValue 5%float)])) /\
  List.filter (fun h => String.eqb (symbol h) "AAPL")
    (fst (processItems 0 pricedFetch
            [SymbolOnly "MSFT"; Entry "TSLA" (Some 0%float) (Some 0%float) NoDate;
             Entry "AAPL" (Some nan) (Some 170%float) (DateValue 5%float)])) = [].
Proof.
  apply (edited_entry_in_loop "AAPL" nan 170%float false 5%float 0%float pricedFetch
           mixedPortfolio _ "AAPL added to portfolio successfully!").
  vm_compute. reflexivity.
Defined.

(** ** Sector taxonomy *)

Lemma firstMatch_label (rules : list (list string * string)) (fallback text : string) :
  In (firstMatch rules fallback text) (fallback :: map snd rules).
Proof.
  induction rules as [|[keywords label] rest IH]; cbn [firstMatch map snd]; [by left|].
  destruct (existsb (includes text) keywords); [right; by left|].
  destruct IH as [IH|IH]; [by left|right; by right].
Qed.

(** X22. Each normaliser answers with its fallback or the label of one
    of its rules, and a label it has produced is a fixed point: applying
    it again changes nothing. *)
Theorem normalisers_idempotent (s : string) :
  In (normalizeSector s) ("Technology" :: map snd sectorRules) /\
  In (normalizeIndustry s) ("Software" :: map snd industryRules) /\
  normalizeSector (normalizeSector s) = normalizeSector s /\
  normalizeIndustry (normalizeIndustry s) = normalizeIndustry s.
Proof.
  assert (In (normalizeSector s) ("Technology" :: map snd sectorRules)) as Hs.
  { rewrite normalizeSector_firstMatch. apply firstMatch_label. }
  assert (In (normalizeIndustry s) ("Software" :: map snd industryRules)) as Hi.
  { rewrite normalizeIndustry_firstMatch. apply firstMatch_label. }
  split; [done|]. split; [done|]. split.
  - cbn in Hs. repeat (destruct Hs as [<-|Hs]; [by vm_compute|]). done.
  - cbn in Hi. repeat (destruct Hi as [<-|Hi]; [by vm_compute|]). done.
Qed.

Lemma inherited_lookup (stockSymbol : string) :
  In stockSymbol inheritedNames -> getManualSectorMapping stockSymbol = Some (None, None).
Proof.
  intros Hin. cbn in Hin. repeat (destruct Hin as [<-|Hin]; [by vm_compute|]). done.
Qed.

Lemma manual_lookup_cases (stockSymbol : string) :
  (exists sector_ industry_,
     getManualSectorMapping stockSymbol = Some (Some sector_, Some industry_) /\
     In sector_ ("Technology" :: map snd sectorRules)) \/
  (getManualSectorMapping stockSymbol = Some (None, None) /\ In stockSymbol inheritedNames) \/
  getManualSectorMapping stockSymbol = None.
Proof.
  unfold getManualSectorMapping.
  destruct (lookupSymbol mappings stockSymbol) as [[sector_ industry_]|] eqn:Hlookup.
  - left. exists sector_, industry_. split; [done|].
    assert (Forall (fun entry => In (fst (snd entry)) ("Technology" :: map snd sectorRules))
              mappings) as Htable.
    { eapply Forall_impl; [|intros entry; apply list_elem_of_In].
      apply (bool_decide_unpack _). vm_compute. exact I. }
    induction Htable as [|[k v] rest Hv _ IH]; cbn [lookupSymbol] in Hlookup; [done|].
    destruct (String.eqb k stockSymbol); [|by apply IH]. by injection Hlookup as ->.
  - right. destruct (existsb (String.eqb stockSymbol) inheritedNames) eqn:Hname; [left|by right].
    split; [done|]. apply existsb_exists in Hname as (name_ & Hin & Heq).
    by apply String.eqb_eq in Heq as ->.
Qed.

(** X23. The sector stored with a holding is a label of the sector
    taxonomy or [undefined].  It is [undefined], together with the
    industry, exactly when the normalised labels are the two fallbacks and
    the symbol names a property that every object inherits (such as
    [constructor]), which the manual lookup then finds.  When the
    normalised labels are not the two fallbacks, or the manual lookup
    finds nothing, the stored labels are the normalised ones, and the
    industry is a label of the industry taxonomy. *)
Theorem classify_within_taxonomy (stockSymbol : string) (profileData : option Profile) :
  match fst (classify stockSymbol profileData) with
  | Some sector_ => In sector_ ("Technology" :: map snd sectorRules)
  | None =>
      normalizedLabels profileData = ("Technology", "Software") /\
      In stockSymbol inheritedNames
  end /\
  (normalizedLabels profileData = ("Technology", "Software") ->
   In stockSymbol inheritedNames ->
   classify stockSymbol profileData = (None, None)) /\
  (normalizedLabels profileData <> ("Technology", "Software") \/
   getManualSectorMapping stockSymbol = None ->
   classify stockSymbol profileData
   = (Some (fst (normalizedLabels profileData)), Some (snd (normalizedLabels profileData))) /\
   In (snd (normalizedLabels profileData)) ("Software" :: map snd industryRules)).
Proof.
  assert (In (fst (normalizedLabels profileData)) ("Technology" :: map snd sectorRules) /\
          In (snd (normalizedLabels profileData)) ("Software" :: map snd industryRules))
    as [Hsector Hindustry].
  { unfold normalizedLabels. destruct profileData as [p|]; cbn [fst snd].
    - rewrite normalizeSector_firstMatch, normalizeIndustry_firstMatch.
      split; apply firstMatch_label.
    - split; by left. }
  unfold classify. destruct (normalizedLabels profileData) as [sector_ industry_].
  cbn [fst snd] in Hsector, Hindustry |- *.
  destruct (String.eqb_spec sector_ "Technology") as [->|Hne]; cbn [andb].
  2:{ split; [done|]. split; [by intros [= ? _]|]. by intros _. }
  destruct (String.eqb_spec industry_ "Software") as [->|Hne].
  2:{ split; [done|]. split; [by intros [= ?]|]. by intros _. }
  destruct (manual_lookup_cases stockSymbol)
    as [(manualSector & manualIndustry & Hmap & Hmanual)|[[Hmap Hname]|Hmap]];
    rewrite Hmap; cbn [fst].
  - split; [done|]. split.
    + intros _ Hin. rewrite (inherited_lookup _ Hin) in Hmap. discriminate Hmap.
    + intros [?|?]; done.
  - split; [done|]. split; [done|]. intros [?|?]; done.
  - split; [by left|]. split.
    + intros _ Hin. rewrite (inherited_lookup _ Hin) in Hmap. discriminate Hmap.
    + by intros _.
Qed.

Lemma classify_within_taxonomy_witness :
  classify "constructor" None = (None, None) /\
  classify "ZZZZ" (Some blankProfile) = (Some "Technology", Some "Software") /\
  In "Software" ("Software" :: map snd industryRules).
Proof.
  destruct (classify_within_taxonomy "constructor" None) as (_ & Hinherited & _).
  destruct (classify_within_taxonomy "ZZZZ" (Some blankProfile)) as (_ & _ & Hplain).
  split; [|apply Hplain; right; reflexivity].
  apply Hinherited; [reflexivity|]. by left.
Defined.

(** ** Search box *)

Import Search.

Lemma trimEnd_id (s : string) :
  all_chars (fun c => negb (is_white_space c)) s = true -> trimEnd s = s.
Proof.
  induction s as [|c s IH]; [done|]. cbn [all_chars trimEnd]. intros [Hc Hs]%andb_true_iff.
  rewrite (IH Hs). apply negb_true_iff in Hc. rewrite Hc. by destruct s.
Qed.

Lemma trim_id (s : string) :
  all_chars (fun c => negb (is_white_space c)) s = true -> trim s = s.
Proof.
  intros Hs. unfold trim. assert (trimStart s = s) as ->; [|by apply trimEnd_id].
  destruct s as [|c s]; [done|]. cbn [all_chars trimStart] in *.
  apply andb_true_iff in Hs as [Hc _]. apply negb_true_iff in Hc. by rewrite Hc.
Qed.

Lemma all_chars_impl (p q : ascii -> bool) (s : string) :
  (forall c, p c = true -> q c = true) -> all_chars p s = true -> all_chars q s = true.
Proof.
  intros Hpq. induction s as [|c s IH]; [done|]. cbn [all_chars].
  intros [Hc Hs]%andb_true_iff. by rewrite (Hpq c Hc), (IH Hs).
Qed.

Lemma toUpperCase_length (s : string) : String.length (toUpperCase s) = String.length s.
Proof. induction s as [|c s IH]; [done|]. cbn. by rewrite IH. Qed.

Lemma letter_cases (c : ascii) :
  is_upper c || is_lower c = true ->
  is_upper (toUpperCase_ascii c) = true /\ is_white_space c = false.
Proof. destruct c as [[] [] [] [] [] [] [] []]; by vm_compute. Qed.

Lemma toUpperCase_letters (s : string) :
  all_chars (fun c => is_upper c || is_lower c) s = true ->
  all_chars is_upper (toUpperCase s) = true.
Proof.
  induction s as [|c s IH]; [done|]. cbn [all_chars toUpperCase].
  intros [Hc Hs]%andb_true_iff. by rewrite (proj1 (letter_cases c Hc)), (IH Hs).
Qed.

Lemma upper_not_white (c : ascii) : is_upper c = true -> negb (is_white_space c) = true.
Proof. destruct c as [[] [] [] [] [] [] [] []]; by vm_compute. Qed.

Lemma keep_chars_all (p : ascii -> bool) (s : string) : all_chars p (keep_chars p s) = true.
Proof.
  induction s as [|c s IH]; [done|]. cbn [keep_chars]. destruct (p c) eqn:Hc; [|done].
  cbn [all_chars]. by rewrite Hc, IH.
Qed.

(** X24. One to five letters, in either case, always lead to the page of
    the upper-cased symbol, whatever the suggestions are. *)
Theorem letters_navigate_to_ticker (searchInput : string) (searchResults : list SearchResult) :
  all_chars (fun c => is_upper c || is_lower c) searchInput = true ->
  (1 <= String.length searchInput <= 5)%nat ->
  handleSearch searchInput searchResults = Navigate ("/stock/" +:+ toUpperCase searchInput).
Proof.
  intros Hletters [Hmin Hmax]. unfold handleSearch.
  assert (trim searchInput = searchInput) as ->.
  { apply trim_id. eapply all_chars_impl; [|exact Hletters].
    intros c Hc. by rewrite (proj2 (letter_cases c Hc)). }
  pose proof (toUpperCase_letters _ Hletters) as Hupper.
  assert (trim (toUpperCase searchInput) = toUpperCase searchInput) as Htrim.
  { apply trim_id. eapply all_chars_impl; [exact upper_not_white|exact Hupper]. }
  destruct (String.eqb_spec searchInput "") as [->|_]; [cbn in Hmin; lia|].
  cbn zeta. rewrite Htrim. unfold looksLikeSymbol.
  rewrite Hupper, toUpperCase_length.
  apply Nat.leb_le in Hmin, Hmax. by rewrite Hmin, Hmax.
Qed.

Lemma letters_navigate_to_ticker_witness :
  handleSearch "aapl" [] = Navigate "/stock/AAPL".
Proof.
  apply (letters_navigate_to_ticker "aapl" []); [reflexivity|cbn; lia].
Defined.

(** X25. Every navigation of the search box is one of three: to the
    trimmed upper-cased input when that is one to five capital letters;
    otherwise to the symbol of the first suggestion when there is one;
    otherwise, when the input is not made of letters, white space and
    [&.,-] only, to what is left of it after dropping everything but
    capital letters and digits, when that has one to six characters.  In
    particular no navigation comes from the search for an exact match. *)
Theorem navigation_targets (searchInput path : string) (searchResults : list SearchResult) :
  handleSearch searchInput searchResults = Navigate path ->
  let input := trim (toUpperCase searchInput) in
  let cleanSymbol := keep_chars (fun c => is_upper c || is_digit c) input in
  (looksLikeSymbol input = true /\ path = "/stock/" +:+ input) \/
  (looksLikeSymbol input = false /\
   exists firstResult rest,
     searchResults = firstResult :: rest /\ path = "/stock/" +:+ symbol firstResult) \/
  (looksLikeSymbol input = false /\ searchResults = [] /\ looksLikeName input = false /\
   path = "/stock/" +:+ cleanSymbol /\ (1 <= String.length cleanSymbol <= 6)%nat /\
   all_chars (fun c => is_upper c || is_digit c) cleanSymbol = true).
Proof.
  intros Hnav input cleanSymbol. unfold handleSearch in Hnav. fold input in Hnav.
  destruct (String.eqb (trim searchInput) ""); [done|]. cbn zeta in Hnav.
  destruct (looksLikeSymbol input); [left; split; [done|by injection Hnav as <-]|right].
  destruct searchResults as [|firstResult rest]; [right|left].
  - destruct (looksLikeName input); [done|]. fold cleanSymbol in Hnav.
    destruct (0 <? String.length cleanSymbol)%nat eqn:Hmin; [|done].
    destruct (String.length cleanSymbol <=? 6)%nat eqn:Hmax; [|done].
    apply Nat.ltb_lt in Hmin. apply Nat.leb_le in Hmax.
    do 3 (split; [done|]). split; [by injection Hnav as <-|]. split; [lia|apply keep_chars_all].
  - split; [done|]. exists firstResult, rest. split; [done|by injection Hnav as <-].
Qed.

Lemma navigation_targets_witness :
  (looksLikeSymbol "BRK2" = true /\ "/stock/BRK2" = "/stock/" +:+ "BRK2") \/
  (looksLikeSymbol "BRK2" = false /\
   exists firstResult rest,
     @nil SearchResult = firstResult :: rest /\ "/stock/BRK2" = "/stock/" +:+ symbol firstResult) \/
  (looksLikeSymbol "BRK2" = false /\ @nil SearchResult = [] /\ looksLikeName "BRK2" = false /\
   "/stock/BRK2" = "/stock/" +:+ "BRK2" /\ (1 <= String.length "BRK2" <= 6)%nat /\
   all_chars (fun c => is_upper c || is_digit c) "BRK2" = true).
Proof.
  apply (navigation_targets " brk2 " "/stock/BRK2" []). vm_compute. reflexivity.
Defined.

(** ** Loading a stock *)

Lemma mul_nan_l x y : is_nan x = true -> is_nan (x * y) = true.
Proof. rewrite !is_nan_spec, mul_spec. intros ->. reflexivity. Qed.

(** A product with a finite non-zero constant is NaN only for NaN. *)
Lemma mul_finite_not_nan (x k : float) (s : bool) (m : positive) (e : Z) :
  Prim2SF k = S754_finite s m e -> is_nan x = false -> is_nan (x * k) = false.
Proof.
  intros Hk. rewrite !is_nan_false_spec, mul_spec, Hk.
  destruct (Prim2SF x) as [sx|sx| |sx mx ex]; [by cbn|by cbn|done|].
  intros _. apply binary_round_aux_not_nan.
Qed.

Lemma num_or_not_nan (o : option float) (d : float) :
  is_nan d = false -> is_nan (num_or o d) = false.
Proof.
  intros Hd. destruct o as [x|]; [|done]. cbn. unfold truthy_num.
  destruct (is_nan x) eqn:Hx; [done|]. by destruct (is_zero x).
Qed.

(** [Math.min(10, Math.max(0, x))] of a number lies between 0 and 10. *)
Lemma clamp_ten_zero (x : float) :
  is_nan x = false -> zeroToTen (Math_min 10 (Math_max 0 x)).
Proof.
  intros Hx.
  assert (is_nan (Math_max 0 x) = false /\ (0 <=? Math_max 0 x)%float = true) as [Hy Hpos].
  { unfold Math_max. rewrite Hx. change (is_nan 0) with false. cbn [orb].
    destruct (0 <? x)%float eqn:Hlt; [split; [done|by apply ltb_leb]|].
    destruct (x <? 0)%float; [done|]. change (get_sign 0) with false. cbn match.
    done. }
  revert Hy Hpos. generalize (Math_max 0 x). intros y Hy Hpos.
  unfold Math_min, zeroToTen. rewrite Hy. change (is_nan 10) with false. cbn [orb].
  destruct (10 <? y)%float eqn:Hgt; [done|].
  destruct (y <? 10)%float eqn:Hlt; [split; [done|by apply ltb_leb]|].
  change (get_sign 10) with false. cbn match. split; [done|]. by apply not_ltb_leb.
Qed.

Lemma In_firstn {A : Type} (x : A) (n : nat) (l : list A) : In x (firstn n l) -> In x l.
Proof.
  revert l. induction n as [|n IH]; intros [|y l]; cbn; try done.
  intros [->|Hin]; [by left|right; by apply IH].
Qed.

Lemma in_optional {A : Type} (x r : A) (c : bool) : In x (if c then [r] else []) -> x = r.
Proof. destruct c; cbn; [|done]. by intros [->|[]]. Qed.

(** Without a bullish momentum the reason for it is not given. *)
Lemma not_bullish_no_reason (d : StockDetails) :
  isBullish d = false ->
  ~ In "Bullish technicals" (reasons (generateInvestmentRecommendation d)).
Proof.
  intros Hbull. unfold generateInvestmentRecommendation. cbv zeta.
  repeat (rewrite let_pair_if, ?if_snoc). rewrite Hbull. cbn [reasons]. cbn match.
  intros Hin%In_firstn. revert Hin.
  destruct (truthy_opt (dividend d)), (3 <? num_of_opt (dividend d))%float;
    rewrite !in_app_iff; intros Hin;
    repeat (destruct Hin as [Hin|Hin]);
    try (apply in_optional in Hin; discriminate Hin); try discriminate Hin;
    by destruct Hin.
Qed.

(** A stock without ratios, average volume, dividend and bullish
    momentum is rated SELL, whatever its change of the day. *)
Lemma bare_quote_sell (d : StockDetails) :
  peRatio d = None -> roe d = None -> debtToEquity d = None -> currentRatio d = None ->
  grossMargin d = None -> avgVolume d = None -> dividend d = None -> isBullish d = false ->
  overall (generateInvestmentRecommendation d) = SELL.
Proof.
  intros Hpe Hroe Hdebt Hratio Hmargin Hvolume Hdividend Hbull.
  unfold generateInvestmentRecommendation. cbv zeta.
  repeat (rewrite let_pair_if, ?if_snoc). unfold highVolume.
  rewrite Hpe, Hroe, Hdebt, Hratio, Hmargin, Hvolume, Hdividend, Hbull.
  cbn [overall present_below present_above truthy_opt andb]. rewrite andb_false_r.
  cbn [andb].
  destruct (present_above (changePercent d) 5), (present_below (changePercent d) (-5));
    by vm_compute.
Qed.

Import StockPage.

(** X26. Loading fails exactly when the quote request was rejected, its
    body is falsy, or the price [c] in it is zero.  So it never fails for
    the profile or the metrics, and a quote body with no price at all is
    accepted. *)
Theorem load_fails_only_on_quote (random : nat -> float) (stockSymbol : string)
    (quote : Settled (option QuoteData)) (profile : Settled ProfileData)
    (metrics : Settled MetricsData) :
  (exists message,
     fetchStockData random stockSymbol quote profile metrics = Throw message) <->
  (exists reason, quote = RejectedWith reason) \/ quote = Fulfilled None \/
  (exists quoteData current,
     quote = Fulfilled (Some quoteData) /\ c quoteData = Some current /\
     (current =? 0)%float = true).
Proof.
  unfold fetchStockData. destruct quote as [[quoteData|]|reason].
  - destruct (c quoteData) as [current|] eqn:Hc.
    + destruct (current =? 0)%float eqn:Hzero.
      * split; [|by eexists]. intros _. right. right. by exists quoteData, current.
      * split; [by intros [? ?]|].
        intros [[? ?]|[?|(q & x & Hq & Hx & Hz)]]; try done.
        injection Hq as <-. congruence.
    + split; [by intros [? ?]|].
      intros [[? ?]|[?|(q & x & Hq & Hx & Hz)]]; try done.
      injection Hq as <-. congruence.
  - split; [|by eexists]. intros _. right. by left.
  - split; [|by eexists]. intros _. left. by eexists.
Qed.

(** X27. For a quote body without the properties [price] and
    [changePercent] (the provider names them [c] and [dp]) the loaded
    indicators have momentum NEUTRAL and four price levels that are NaN,
    the risk score is at most 8, and the recommendation never gives the
    reason for bullish technicals, whatever the change of the day. *)
Theorem indicators_ignore_provider_quote (random : nat -> float) (stockSymbol : string)
    (quoteData : QuoteData) (profile : Settled ProfileData)
    (metrics : Settled MetricsData) (loaded : Loaded) :
  price quoteData = None -> changePercent quoteData = None ->
  fetchStockData random stockSymbol (Fulfilled (Some quoteData)) profile metrics
    = Ok loaded ->
  (exists t, technicalIndicators (details loaded) = Some t /\ momentum t = NEUTRAL /\
     is_nan (movingAvg20 t) = true /\ is_nan (movingAvg50 t) = true /\
     is_nan (support t) = true /\ is_nan (resistance t) = true) /\
  (riskScore (riskMetrics loaded) <=? 8)%float = true /\
  ~ In "Bullish technicals" (reasons (recommendationOf loaded)).
Proof.
  intros Hprice Hchange. unfold fetchStockData.
  destruct (match c quoteData with Some _ => _ | None => _ end); [done|].
  intros [= <-]. unfold recommendationOf. cbn [details riskMetrics technicalIndicators].
  unfold generateAdditionalMetrics. rewrite Hprice, Hchange.
  cbn [fst snd num_or num_of_opt].
  change (2 <? 0)%float with false. change (0 <? -2)%float with false.
  change (10 <? abs 0)%float with false. cbn match.
  split; [|split].
  - eexists. split; [done|]. cbn [momentum movingAvg20 movingAvg50 support resistance].
    split; [done|]. by repeat split; apply mul_nan_l.
  - cbn [riskScore].
    repeat match goal with |- context [if ?c then _ else _] => destruct c end; by vm_compute.
  - by apply not_bullish_no_reason.
Qed.

Lemma indicators_ignore_provider_quote_witness :
  exists loaded,
    fetchStockData halves "AAPL" (Fulfilled (Some (providerQuote 180 6 1000)))
      (RejectedWith "offline") (RejectedWith "offline") = Ok loaded /\
    (exists t, technicalIndicators (details loaded) = Some t /\ momentum t = NEUTRAL /\
       is_nan (movingAvg20 t) = true /\ is_nan (movingAvg50 t) = true /\
       is_nan (support t) = true /\ is_nan (resistance t) = true) /\
    (riskScore (riskMetrics loaded) <=? 8)%float = true /\
    ~ In "Bullish technicals" (reasons (recommendationOf loaded)).
Proof.
  eexists. split; [reflexivity|].
  apply (indicators_ignore_provider_quote halves "AAPL" (providerQuote 180 6 1000)
           (RejectedWith "offline") (RejectedWith "offline")); reflexivity.
Defined.

(** X28. The three risk metrics always lie between 0 and 10, whatever
    the quote and the metrics hold; none of them is NaN. *)
Theorem risk_metrics_in_range (random : nat -> float) (stock : QuoteData)
    (metricsData : MetricsData) :
  let metrics_ := fst (generateAdditionalMetrics random stock metricsData) in
  zeroToTen (riskScore metrics_) /\ zeroToTen (liquidityScore metrics_) /\
  zeroToTen (fundamentalRisk metrics_).
Proof.
  unfold generateAdditionalMetrics.
  cbn [fst riskScore liquidityScore fundamentalRisk]. split; [|split].
  - repeat match goal with |- context [if ?c then _ else _] => destruct c end; by vm_compute.
  - apply clamp_ten_zero.
    apply (mul_finite_not_nan _ 3 false 6755399441055744 (-51) eq_refl).
    by apply num_or_not_nan.
  - apply clamp_ten_zero.
    apply (mul_finite_not_nan _ 5 false 5629499534213120 (-50) eq_refl).
    by apply num_or_not_nan.
Qed.

(** X29. When the metrics request failed and the quote body has no
    [changePercent], the stock is rated SELL and the page shows no risk
    level, whatever the quote and the profile say. *)
Theorem failed_metrics_rating (random : nat -> float) (stockSymbol : string)
    (quoteData : QuoteData) (profile : Settled ProfileData) (reason : string)
    (loaded : Loaded) :
  changePercent quoteData = None ->
  fetchStockData random stockSymbol (Fulfilled (Some quoteData)) profile
    (RejectedWith reason) = Ok loaded ->
  overall (recommendationOf loaded) = SELL /\ riskLevelOf loaded = None.
Proof.
  intros Hchange. unfold fetchStockData.
  destruct (match c quoteData with Some _ => _ | None => _ end); [done|].
  intros [= <-]. unfold recommendationOf, riskLevelOf.
  cbn [details loadedBeta marketCap metricField metric noMetric marketCapitalization
       truthy_opt peBasicExclExtraTTM totalDebt2EquityQuarterly beta roeTTM
       currentRatioQuarterly grossMarginTTM avgTradingVolume10Day
       dividendYieldIndicatedAnnual andb].
  split; [|done].
  apply bare_quote_sell; try reflexivity.
  unfold generateAdditionalMetrics, isBullish. by rewrite Hchange.
Qed.

Lemma failed_metrics_rating_witness :
  exists loaded,
    fetchStockData halves "AAPL" (Fulfilled (Some (providerQuote 180 6 1000)))
      (Fulfilled {| marketCapitalization := Some 2800000%float |})
      (RejectedWith "offline") = Ok loaded /\
    overall (recommendationOf loaded) = SELL /\ riskLevelOf loaded = None.
Proof.
  eexists. split; [reflexivity|].
  apply (failed_metrics_rating halves "AAPL" (providerQuote 180 6 1000)
           (Fulfilled {| marketCapitalization := Some 2800000%float |}) "offline");
    reflexivity.
Defined.

(** ** Annualised return: what a returned number is *)

Lemma newton_sound (pow : float -> float -> float) (flows : list (float * float))
    (iterations : nat) :
  forall rate result_,
    (rate <? -0.99)%float = false -> (10 <? rate)%float = false ->
    newton pow flows iterations rate = Some result_ ->
    exists converged,
      result_ = (converged * 100)%float /\
      (abs (fst (npvPair pow flows converged)) <? tolerance)%float = true /\
      (converged <? -0.99)%float = false /\ (10 <? converged)%float = false.
Proof.
  induction iterations as [|iterations IH]; intros rate result_ Hlow Hhigh; [done|].
  cbn [newton]. destruct (npvPair pow flows rate) as [npv dnpv] eqn:Hpair.
  destruct (abs npv <? tolerance)%float eqn:Hconv.
  - intros [= <-]. exists rate. by rewrite Hpair.
  - destruct (abs dnpv <? tolerance)%float; [done|].
    destruct ((rate - npv / dnpv) <? -0.99)%float eqn:Hlow'; [done|].
    destruct (10 <? (rate - npv / dnpv))%float eqn:Hhigh'; [done|].
    cbn [orb]. by apply IH.
Qed.

(** X30. A number returned by [calculateXIRR] is one hundred times a rate
    between -0.99 and 10 at which the net present value computed from the
    flows, with days counted from the first date, is below the tolerance
    in absolute value; and there are then as many dates as flows, at
    least two.  This holds for every power function. *)
Theorem xirr_is_root (pow : float -> float -> float) (cashFlows dates : list float)
    (percent : float) :
  calculateXIRR pow cashFlows dates = Some percent ->
  let daysDiff :=
    map (fun date => ((date - hd nan dates) / (1000 * 60 * 60 * 24))%float) dates in
  (length cashFlows = length dates /\ 2 <= length cashFlows)%nat /\
  exists rate,
    percent = (rate * 100)%float /\
    (abs (fst (npvPair pow (combine cashFlows daysDiff) rate)) <? tolerance)%float = true /\
    (rate <? -0.99)%float = false /\ (10 <? rate)%float = false.
Proof.
  intros Hsome daysDiff. unfold calculateXIRR in Hsome.
  destruct (length cashFlows =? length dates)%nat eqn:Hlen; [|done].
  destruct (length cashFlows <? 2)%nat eqn:Hshort; [done|].
  cbn [negb orb] in Hsome.
  destruct (_ || _) in Hsome; [done|].
  apply Nat.eqb_eq in Hlen. apply Nat.ltb_ge in Hshort. split; [done|].
  by apply (newton_sound pow _ maxIterations 0.1%float).
Qed.

Lemma xirr_is_root_witness :
  exists percent,
    calculateXIRR examplePow [(-100)%float; 100%float] [0%float; 0%float] = Some percent /\
    exists rate,
      percent = (rate * 100)%float /\
      (abs (fst (npvPair examplePow
                   (combine [(-100)%float; 100%float]
                      (map (fun date => ((date - 0) / (1000 * 60 * 60 * 24))%float)
                         [0%float; 0%float])) rate)) <? tolerance)%float = true /\
      (rate <? -0.99)%float = false /\ (10 <? rate)%float = false.
Proof.
  eexists. split; [vm_compute; reflexivity|].
  apply (xirr_is_root examplePow [(-100)%float; 100%float] [0%float; 0%float]).
  vm_compute. reflexivity.
Defined.
